(** * ct2mcnp: a CT volume turned into an MCNP lattice input deck

    A shallow embedding of [src/ct2mcnp/generator.py] and the properties
    of its voxel classifier, lattice geometry builder, section writers
    and deck assembler.

    Conventions of the embedding.
    - Python [int] is [Z]; [//] is [Z.div] and [%] is [Z.modulo] (both
      floor towards minus infinity, as in Python).
    - Intensities (Hounsfield units) and interval boundaries are integers.
    - Lengths ([spacing] and everything derived from it) are exact
      rationals [Q]; binary rounding of Python floats is not modelled.
    - A Python exception is a value of [exn]; code that can raise returns
      a [result].
    - An [ndarray] is a shape with its elements in C order (the memory
      order of the arrays this program builds). *)

From Stdlib Require Import ZArith QArith Qround List String Ascii Bool Lia Lqa.
From Stdlib Require Import DecimalString DecimalPos DecimalZ Sorted.
From Equations Require Import Equations.
Import ListNotations.

Set Implicit Arguments.

(* ===================================================================== *)
(** * Python values and built-ins used by the generator *)
(* ===================================================================== *)

Module Py.

(** The exceptions the generator can raise. *)
Inductive exn : Type :=
| AssertionError
| KeyError (key : string)
| IndexError
| ValueError
| TypeError
| AttributeError (attr : string).

Inductive result (A : Type) : Type :=
| Ok (a : A)
| Raise (e : exn).
Arguments Ok {A} a.
Arguments Raise {A} e.

Definition bind {A B} (r : result A) (k : A -> result B) : result B :=
  match r with
  | Ok a => k a
  | Raise e => Raise e
  end.

(** A scalar of the configuration file (TOML).  A float is carried as
    the text [str] prints for it: this program only ever prints the
    floats of its configuration. *)
Inductive scalar : Type :=
| SInt (z : Z)
| SStr (s : string)
| SFloat (shown : string).

(** [str(int)]: decimal digits, with a minus sign when negative. *)
Definition str_int (z : Z) : string := NilZero.string_of_int (Z.to_int z).

(** [int(s)] on a plain decimal literal; anything else is a
    [ValueError]. (Python also accepts surrounding blanks, a plus sign
    and underscores; those spellings are not modelled.) *)
Definition int_of_str (s : string) : result Z :=
  match NilZero.int_of_string s with
  | Some d => Ok (Z.of_int d)
  | None => Raise ValueError
  end.

Definition str (a : scalar) : string :=
  match a with
  | SInt z => str_int z
  | SStr s => s
  | SFloat shown => shown
  end.

(** Equality of dictionary keys.  (An [int] and a [float] of the same
    value are one key in Python; a float is kept as text here and is
    only equal to the same text.) *)
Definition scalar_eqb (a b : scalar) : bool :=
  match a, b with
  | SInt x, SInt y => Z.eqb x y
  | SStr x, SStr y => String.eqb x y
  | SFloat x, SFloat y => String.eqb x y
  | _, _ => false
  end.

(** [sep.join(parts)] *)
Fixpoint join (sep : string) (parts : list string) : string :=
  match parts with
  | [] => EmptyString
  | [p] => p
  | p :: rest => p ++ sep ++ join sep rest
  end.

(** ** Dictionaries

    A [dict] keeps insertion order; assigning to a key already present
    replaces the value in place. *)
Section Dict.
Variables (K V : Type) (eqb : K -> K -> bool).

Fixpoint dict_get (d : list (K * V)) (k : K) : option V :=
  match d with
  | [] => None
  | (k', v) :: rest => if eqb k' k then Some v else dict_get rest k
  end.

Fixpoint dict_set (d : list (K * V)) (k : K) (v : V) : list (K * V) :=
  match d with
  | [] => [(k, v)]
  | (k', v') :: rest =>
      if eqb k' k then (k', v) :: rest else (k', v') :: dict_set rest k v
  end.

End Dict.

(** [min(l)] and [max(l)]; both raise [ValueError] on an empty list. *)
Definition py_min (l : list Z) : result Z :=
  match l with
  | [] => Raise ValueError
  | x :: rest => Ok (fold_left Z.min rest x)
  end.

Definition py_max (l : list Z) : result Z :=
  match l with
  | [] => Raise ValueError
  | x :: rest => Ok (fold_left Z.max rest x)
  end.

(** ** [bisect.bisect_left]

    [[
    while lo < hi:
        mid = (lo + hi) // 2
        if a[mid] < x: lo = mid + 1
        else: hi = mid
    return lo
    ]]
    [mid] stays below [hi], which starts as [len(a)], so [a[mid]] never
    raises. *)
Equations? bisect_loop (a : list Z) (x : Z) (lo hi : nat) : nat
  by wf (hi - lo)%nat lt :=
bisect_loop a x lo hi with lt_dec lo hi := {
  | left _ =>
      let mid := ((lo + hi) / 2)%nat in
      if (nth mid a 0 <? x)%Z
      then bisect_loop a x (S mid) hi
      else bisect_loop a x lo mid
  | right _ => lo }.
Proof.
  all: assert (Hm : (lo <= (lo + hi) / 2 < hi)%nat)
    by (split;
        [apply Nat.div_le_lower_bound | apply Nat.Div0.div_lt_upper_bound];
        lia);
    change (lo <= mid < hi)%nat in Hm; lia.
Qed.

Definition bisect_left (a : list Z) (x : Z) : nat :=
  bisect_loop a x 0 (List.length a).

End Py.
Import Py.

Notation "x <- r ;; k" := (Py.bind r (fun x => k))
  (at level 61, r at next level, right associativity).


(* ===================================================================== *)
(** * numpy arrays *)
(* ===================================================================== *)

Module Np.

(** An array: its shape and its elements in C order (last axis varies
    fastest). *)
Record ndarray : Type := { shape : list nat; data : list Z }.

Definition prod_nat (l : list nat) : nat := fold_right Nat.mul 1%nat l.

Definition wf (a : ndarray) : Prop :=
  List.length (data a) = prod_nat (shape a).

(** The multi-indices of a shape in C order: what
    [np.nditer(a, flags=['multi_index'])] walks through for a
    C-contiguous array. *)
Fixpoint ndindex (sh : list nat) : list (list nat) :=
  match sh with
  | [] => [[]]
  | n :: rest =>
      flat_map (fun i => List.map (cons i) (ndindex rest)) (seq 0 n)
  end.

(** Offset of a multi-index in the C-order buffer. *)
Fixpoint ravel (sh idx : list nat) : nat :=
  match sh, idx with
  | _ :: rest, i :: idx' => (i * prod_nat rest + ravel rest idx')%nat
  | _, _ => 0%nat
  end.

Fixpoint list_set (l : list Z) (i : nat) (v : Z) : list Z :=
  match l, i with
  | [], _ => []
  | _ :: rest, O => v :: rest
  | x :: rest, S i' => x :: list_set rest i' v
  end.

(** [a[idx]] and [a[idx] = v].  They are only ever applied to the
    multi-indices that [nditer] produces for the same shape, which are in
    range; numpy's [IndexError] is therefore not modelled here. *)
Definition getitem (a : ndarray) (idx : list nat) : Z :=
  nth (ravel (shape a) idx) (data a) 0%Z.

Definition setitem (a : ndarray) (idx : list nat) (v : Z) : ndarray :=
  {| shape := shape a; data := list_set (data a) (ravel (shape a) idx) v |}.

(** [np.zeros_like(a, dtype=...)] *)
Definition zeros_like (a : ndarray) : ndarray :=
  {| shape := shape a; data := repeat 0%Z (List.length (data a)) |}.

(** The values [np.nditer(a)] yields, in order. *)
Definition nditer (a : ndarray) : list Z :=
  List.map (getitem a) (ndindex (shape a)).

(** [np.clip(a, lo, hi)] is [minimum(maximum(a, lo), hi)] element-wise. *)
Definition clip1 (lo hi x : Z) : Z := Z.min (Z.max x lo) hi.

Definition clip (a : ndarray) (lo hi : Z) : ndarray :=
  {| shape := shape a; data := List.map (clip1 lo hi) (data a) |}.

(** A Python [int] stored into a [uint32] array keeps its low 32 bits. *)
Definition to_uint32 (z : Z) : Z := (z mod 2 ^ 32)%Z.

(** [np.rint]: round to the nearest integer, halves to the even one. *)
Definition rint (q : Q) : Z :=
  let f := Qfloor q in
  match Qcompare (q - inject_Z f) (1 # 2) with
  | Lt => f
  | Gt => (f + 1)%Z
  | Eq => if Z.even f then f else (f + 1)%Z
  end.

(** [np.around(q, 3)] *)
Definition around3 (q : Q) : Q := Qred (rint (q * 1000) # 1000).

(** Indexing a one-dimensional array with a non-negative index. *)
Definition vec_get {A} (v : list A) (i : nat) : result A :=
  match nth_error v i with
  | Some x => Ok x
  | None => Raise IndexError
  end.

(** Element-wise product of two one-dimensional arrays, with numpy's
    broadcasting of a length-one operand. *)
Definition vec_mul (size : list Z) (spacing : list Q) : result (list Q) :=
  if (List.length size =? List.length spacing)%nat
  then Ok (List.map (fun p => inject_Z (fst p) * snd p) (combine size spacing))
  else match size, spacing with
       | [n], _ => Ok (List.map (fun s => inject_Z n * s) spacing)
       | _, [s] => Ok (List.map (fun n => inject_Z n * s) size)
       | _, _ => Raise ValueError
       end.

Definition Qmax (a b : Q) : Q := if Qle_bool a b then b else a.

(** [v.max()] *)
Definition vec_max (v : list Q) : result Q :=
  match v with
  | [] => Raise ValueError
  | x :: rest => Ok (fold_left Qmax rest x)
  end.

(** [np.prod(v)] *)
Definition prod (v : list Z) : Z := fold_left Z.mul v 1%Z.

End Np.

(* ===================================================================== *)
(** * SimpleITK images (the interface the generator uses) *)
(* ===================================================================== *)

Module Sitk.

(** A three-dimensional image: voxel counts and physical spacing along
    x, y, z, and the intensity at each (x, y, z). *)
Record Image : Type := {
  nx : nat; ny : nat; nz : nat;
  sx : Q; sy : Q; sz : Q;
  pixel : nat -> nat -> nat -> Z
}.

(** [ct.GetSize()] is (x, y, z). *)
Definition GetSize (ct : Image) : list Z :=
  [Z.of_nat (nx ct); Z.of_nat (ny ct); Z.of_nat (nz ct)].

Definition GetSpacing (ct : Image) : list Q := [sx ct; sy ct; sz ct].

(** [sitk.GetArrayFromImage(ct)]: the array is indexed [z, y, x]. *)
Definition GetArrayFromImage (ct : Image) : Np.ndarray :=
  {| Np.shape := [nz ct; ny ct; nx ct];
     Np.data :=
       flat_map (fun z =>
         flat_map (fun y =>
           List.map (fun x => pixel ct x y z) (seq 0 (nx ct)))
           (seq 0 (ny ct)))
         (seq 0 (nz ct)) |}.

End Sitk.

(* ===================================================================== *)
(** * The run configuration *)
(* ===================================================================== *)

Module Config.

(** A configuration value that is printed: a scalar or a list of them. *)
Inductive item : Type :=
| Scalar (a : scalar)
| Items (l : list scalar).

(** One material of the [material] table.  A field is [None] when the
    key is missing from the table. *)
Record material_entry : Type := {
  hu_interval : option (list Z);
  nucleon : option (list scalar);
  fraction : option (list scalar);
  density : option scalar
}.

Definition material_config : Type := list (string * material_entry).

(** A value of the [source] table: a distribution (a sub-table) or a
    directly printed value. *)
Inductive source_value : Type :=
| Dist (d : list (string * item))
| Direct (v : item).

Definition source_config : Type := list (string * source_value).

(** One mesh tally: the particle, and optionally the [de]/[df] response
    table and the [fm] multiplier. *)
Record tally_entry : Type := {
  particle : scalar;
  de : option (list scalar);
  df : option (list scalar);
  fm : option item
}.

Definition tally_config : Type := list (string * tally_entry).

Definition out_config : Type := list (string * item).

(** The run configuration.  A field is [None] when its key is absent;
    for the optional cards, [Some None] is the key bound to Python's
    [None]. *)
Record t : Type := {
  material : option material_config;
  mode : option (list string);
  source : option (option source_config);
  tally : option (option tally_config);
  outcontrol : option (option out_config)
}.

(** [d[key]] for a key that may be missing. *)
Definition get {A} (field : option A) (key : string) : result A :=
  match field with
  | Some v => Ok v
  | None => Raise (KeyError key)
  end.

End Config.

(* ===================================================================== *)
(** * class CTVoxel *)
(* ===================================================================== *)

Module CTVoxel.

Definition element_table_t : Type := list (Z * list (scalar * scalar)).
Definition density_table_t : Type := list (Z * scalar).

Record t : Type := {
  array : Np.ndarray;
  spacing : list Q;
  size : list Z;
  hu_interval : list Z;
  element_table : element_table_t;
  density_table : density_table_t;
  keys : list Z;
  index_map : Np.ndarray
}.

(** [dict(list(zip(ks, vs)))] *)
Definition dict_of_zip (ks vs : list scalar) : list (scalar * scalar) :=
  fold_left (fun d kv => dict_set scalar_eqb d (fst kv) (snd kv))
            (combine ks vs) [].

(** [hu_interval = list(set(raw)); hu_interval.sort(key=raw.index)]:
    the distinct values of [raw], ordered by first occurrence. *)
Fixpoint first_seen (raw : list Z) : list Z :=
  match raw with
  | [] => []
  | x :: rest => x :: filter (fun y => negb (Z.eqb y x)) (first_seen rest)
  end.

Definition parse_state : Type :=
  (list Z * element_table_t * density_table_t * list Z)%type.

(** One turn of the loop over [material_config.items()]. *)
Definition parse_entry (st : parse_state)
    (entry : string * Config.material_entry) : result parse_state :=
  let '(raw_hu_interval, element_table, density_table, keys) := st in
  let (i, material) := entry in
  hu <- Config.get (Config.hu_interval material) "hu_interval" ;;
  k <- int_of_str i ;;
  nuc <- Config.get (Config.nucleon material) "nucleon" ;;
  fr <- Config.get (Config.fraction material) "fraction" ;;
  d <- Config.get (Config.density material) "density" ;;
  Ok ((raw_hu_interval ++ hu)%list,
      dict_set Z.eqb element_table k (dict_of_zip nuc fr),
      dict_set Z.eqb density_table k d,
      (keys ++ [k])%list).

Fixpoint parse_entries (st : parse_state)
    (entries : Config.material_config) : result parse_state :=
  match entries with
  | [] => Ok st
  | e :: rest => st' <- parse_entry st e ;; parse_entries st' rest
  end.

Definition _parse_material (material_config : Config.material_config)
  : result parse_state :=
  st <- parse_entries ([], [], [], []) material_config ;;
  let '(raw_hu_interval, element_table, density_table, keys) := st in
  Ok (first_seen raw_hu_interval, element_table, density_table, keys).

(** The index computed for one sample:
    [index = bisect_left(hu_interval, x); if index == 0: index = 1]. *)
Definition material_index (hu_interval : list Z) (x : Z) : Z :=
  let index := Z.of_nat (bisect_left hu_interval x) in
  if (index =? 0)%Z then 1%Z else index.

(** The [while not it.finished] loop, one multi-index per turn, writing
    into the [uint32] array [index_map]. *)
Definition _convert_hu_to_material (array : Np.ndarray)
    (hu_interval : list Z) : Np.ndarray :=
  fold_left
    (fun index_map multi_index =>
       Np.setitem index_map multi_index
         (Np.to_uint32
            (material_index hu_interval (Np.getitem array multi_index))))
    (Np.ndindex (Np.shape array))
    (Np.zeros_like array).

Definition __init__ (ct : Sitk.Image)
    (material_config : Config.material_config) : result t :=
  let array0 := Sitk.GetArrayFromImage ct in
  let spacing := List.map (fun s => Np.around3 (s / 20)) (Sitk.GetSpacing ct) in
  let size := Sitk.GetSize ct in
  st <- _parse_material material_config ;;
  let '(hu_interval, element_table, density_table, keys) := st in
  lo <- py_min hu_interval ;;
  hi <- py_max hu_interval ;;
  let array := Np.clip array0 lo hi in
  Ok {| array := array; spacing := spacing; size := size;
        hu_interval := hu_interval; element_table := element_table;
        density_table := density_table; keys := keys;
        index_map := _convert_hu_to_material array hu_interval |}.

End CTVoxel.

(* ===================================================================== *)
(** * Text: number formatting and the output file *)
(* ===================================================================== *)

Module Text.

Local Open Scope string_scope.

(** The newline character. *)
Definition nl : string := String "010" "".

(** [n] in 0..999 as three digits. *)
Definition pad3 (n : Z) : string :=
  (if (n <? 10)%Z then "00" else if (n <? 100)%Z then "0" else "")
  ++ str_int n.

(** [f"{q:.3f}"]: fixed point with three decimals.  (A float that is a
    negative zero prints with a minus sign; exact rationals have no
    negative zero.) *)
Definition format_3f (q : Q) : string :=
  let n := Z.abs (Np.rint (q * 1000)) in
  (if Qle_bool 0 q then "" else "-")
  ++ str_int (n / 1000) ++ "." ++ pad3 (n mod 1000).

(** [str] of a float with at most three decimals: the shortest decimal,
    with at least one digit after the point. *)
Definition float_str (q : Q) : string :=
  let n := Z.abs (Np.rint (q * 1000)) in
  let frac := (n mod 1000)%Z in
  (if Qle_bool 0 q then "" else "-")
  ++ str_int (n / 1000) ++ "."
  ++ (if (frac mod 100 =? 0)%Z then str_int (frac / 100)
      else if (frac mod 10 =? 0)%Z
           then (if (frac <? 100)%Z then "0" else "") ++ str_int (frac / 10)
           else pad3 frac).

(** [_list_to_str] *)
Definition _list_to_str (vec : Config.item) : string :=
  match vec with
  | Config.Items l => join " " (List.map str l)
  | Config.Scalar a => str a
  end.

End Text.

(** Writing to the output file: the state is the text written so far,
    and it is kept when an exception is raised. *)
Module IO.

Definition t (A : Type) : Type := string -> string * result A.

Definition ret {A} (a : A) : t A := fun file => (file, Ok a).

Definition bind {A B} (c : t A) (k : A -> t B) : t B :=
  fun file =>
    match c file with
    | (file', Ok a) => k a file'
    | (file', Raise e) => (file', Raise e)
    end.

(** A computation that writes nothing. *)
Definition lift {A} (r : result A) : t A := fun file => (file, r).

(** [file.write(text)] *)
Definition write (text : string) : t unit :=
  fun file => ((file ++ text)%string, Ok tt).

Fixpoint for_each {A} (l : list A) (body : A -> t unit) : t unit :=
  match l with
  | [] => ret tt
  | x :: rest => bind (body x) (fun _ => for_each rest body)
  end.

(** [file.writelines(lines)] *)
Definition writelines (lines : list string) : t unit := for_each lines write.

End IO.

Notation "x <~ c ;; k" := (IO.bind c (fun x => k))
  (at level 61, c at next level, right associativity).
Notation "c ;;; k" := (IO.bind c (fun _ => k))
  (at level 61, right associativity).

(* ===================================================================== *)
(** * class Geometry *)
(* ===================================================================== *)

Module Geometry.

Import Text.
Local Open Scope string_scope.

Record t : Type := {
  mode : string;
  size : list Z;
  spacing : list Q;
  index_map : Np.ndarray;
  keys : list Z;
  element_table : CTVoxel.element_table_t;
  density_table : CTVoxel.density_table_t;
  base_cell_surfaces : list string;
  base_cell_geom : string;
  phantom_cell_surfaces : list string;
  phantom_origin : list Q;
  phantom_limit : list Q;
  fill : string;
  phantom_cell_geom : string;
  word_cell_surface : string
}.

Definition _build_base_cell_surfaces (spacing : list Q)
  : result (list string * string) :=
  s0 <- Np.vec_get spacing 0 ;;
  s1 <- Np.vec_get spacing 1 ;;
  s2 <- Np.vec_get spacing 2 ;;
  Ok ([ "11    px    " ++ format_3f s0 ++ nl;
        "12    px    " ++ format_3f (- s0) ++ nl;
        "13    py    " ++ format_3f s1 ++ nl;
        "14    py    " ++ format_3f (- s1) ++ nl;
        "15    pz    " ++ format_3f s2 ++ nl;
        "16    pz    " ++ format_3f (- s2) ++ nl ],
      "-11 12 -13 14 -15 16").

(** What one axis adds to the phantom cell. *)
Record axis_part : Type := {
  surfaces : list string;
  fill_range : string;
  limit : Q;
  origin : Q
}.

(** The [if self.size[axis] % 2 == 0: ... else: ...] block of
    [_build_phantom_cell_surfaces].  The source repeats it for the axes
    0, 1 and 2; the copies differ in the surface numbers ([upper],
    [lower]), the plane name and the separator that ends the fill range
    (a blank, except after the last axis). *)
Definition phantom_axis (size : list Z) (spacing : list Q)
    (half_size : list Z) (axis : nat) (upper lower plane sep : string)
  : result axis_part :=
  n <- Np.vec_get size axis ;;
  if (n mod 2 =? 0)%Z then
    s <- Np.vec_get spacing axis ;;
    h <- Np.vec_get half_size axis ;;
    Ok {| surfaces :=
            [ upper ++ "  " ++ plane ++ "  "
                ++ format_3f (inject_Z (n + 1) * s) ++ nl;
              lower ++ "  " ++ plane ++ "  "
                ++ format_3f (inject_Z (- n + 1) * s) ++ nl ];
          fill_range := str_int (- h + 1) ++ ":" ++ str_int h ++ sep;
          limit := inject_Z (n + 1) * s;
          origin := inject_Z (- n + 1) * s |}
  else
    s <- Np.vec_get spacing axis ;;
    h <- Np.vec_get half_size axis ;;
    Ok {| surfaces :=
            [ upper ++ "  " ++ plane ++ "  "
                ++ format_3f (inject_Z n * s) ++ nl;
              lower ++ "  " ++ plane ++ "  "
                ++ format_3f (inject_Z (- n) * s) ++ nl ];
          fill_range := str_int h ++ ":" ++ str_int h ++ sep;
          limit := inject_Z n * s;
          origin := inject_Z (- n) * s |}.

Record phantom : Type := {
  ph_surfaces : list string;
  ph_origin : list Q;
  ph_limit : list Q;
  ph_fill : string;
  ph_geom : string
}.

Definition _build_phantom_cell_surfaces (size : list Z) (spacing : list Q)
  : result phantom :=
  let half_size := List.map (fun n => (n / 2)%Z) size in
  x <- phantom_axis size spacing half_size 0 "111" "112" "px" " " ;;
  y <- phantom_axis size spacing half_size 1 "113" "114" "py" " " ;;
  z <- phantom_axis size spacing half_size 2 "115" "116" "pz" "" ;;
  Ok {| ph_surfaces := (surfaces x ++ surfaces y ++ surfaces z)%list;
        ph_origin := [origin x; origin y; origin z];
        ph_limit := [limit x; limit y; limit z];
        ph_fill := "fill=" ++ fill_range x ++ fill_range y ++ fill_range z;
        ph_geom := "-111 112 -113 114 -115 116" |}.

(** [world_radius] of [_build_world_surface]. *)
Definition world_radius (size : list Z) (spacing : list Q) : result Q :=
  extents <- Np.vec_mul size spacing ;;
  phantom_max_size <- Np.vec_max extents ;;
  Ok (phantom_max_size + 100)%Q.

Definition _build_world_surface (size : list Z) (spacing : list Q)
  : result string :=
  r <- world_radius size spacing ;;
  Ok ("1000  so  " ++ float_str r ++ nl).

Definition __init__ (voxel : CTVoxel.t) (mode : list string) : result t :=
  let size := CTVoxel.size voxel in
  let spacing := CTVoxel.spacing voxel in
  base <- _build_base_cell_surfaces spacing ;;
  ph <- _build_phantom_cell_surfaces size spacing ;;
  world <- _build_world_surface size spacing ;;
  Ok {| mode := join "," mode;
        size := size;
        spacing := spacing;
        index_map := CTVoxel.index_map voxel;
        keys := CTVoxel.keys voxel;
        element_table := CTVoxel.element_table voxel;
        density_table := CTVoxel.density_table voxel;
        base_cell_surfaces := fst base;
        base_cell_geom := snd base;
        phantom_cell_surfaces := ph_surfaces ph;
        phantom_origin := ph_origin ph;
        phantom_limit := ph_limit ph;
        fill := ph_fill ph;
        phantom_cell_geom := ph_geom ph;
        word_cell_surface := world |}.

(** The two cell cards of material [i]. *)
Definition write_material_cells (g : t) (i : Z) : IO.t unit :=
  d <~ IO.lift (match dict_get Z.eqb (density_table g) i with
                | Some d => Ok d
                | None => Raise (KeyError (str_int i))
                end) ;;
  IO.write (str_int i ++ "  " ++ str_int i ++ "  " ++ str d) ;;;
  IO.write ("  " ++ base_cell_geom g ++ "  u=" ++ str_int i
              ++ "  imp:" ++ mode g ++ "=1" ++ nl) ;;;
  IO.write ("88" ++ str_int i ++ "  0  #" ++ str_int i ++ "  u=" ++ str_int i
              ++ "  imp:" ++ mode g ++ "=1" ++ nl).

(** What is written after one value of the fill list, given the running
    counter [accumulator] and [total = np.prod(self.size)]. *)
Definition wrap (accumulator total : Z) : string :=
  if ((accumulator mod 20 =? 0) && negb (accumulator =? total))%Z
  then nl ++ "    "
  else if ((accumulator mod 20 =? 0) && (accumulator =? total))%Z
  then nl
  else if (accumulator =? total)%Z
  then nl
  else "".

(** The [while not it.finished] loop of [to_file]. *)
Fixpoint write_fill_list (values : list Z) (accumulator total : Z)
  : IO.t unit :=
  match values with
  | [] => IO.ret tt
  | v :: rest =>
      IO.write (" " ++ str_int v) ;;;
      IO.write (wrap accumulator total) ;;;
      write_fill_list rest (accumulator + 1)%Z total
  end.

Definition to_file (g : t) : IO.t unit :=
  IO.for_each (keys g) (write_material_cells g) ;;;
  IO.write ("998  0  " ++ base_cell_geom g ++ " u=999 imp:" ++ mode g
              ++ "=1" ++ nl) ;;;
  IO.write ("     lat=1  " ++ fill g ++ nl ++ "    ") ;;;
  write_fill_list (Np.nditer (index_map g)) 1 (Np.prod (size g)) ;;;
  IO.write ("999  0  " ++ phantom_cell_geom g ++ "  fill=999 imp:" ++ mode g
              ++ "=1" ++ nl) ;;;
  IO.write ("1000  1  -0.00129  -1000 #999 imp:" ++ mode g ++ "=1" ++ nl) ;;;
  IO.write ("9999  0  1000  imp:" ++ mode g ++ "=0" ++ nl) ;;;
  IO.write nl ;;;
  IO.writelines (base_cell_surfaces g) ;;;
  IO.writelines (phantom_cell_surfaces g) ;;;
  IO.write (word_cell_surface g).

End Geometry.

(* ===================================================================== *)
(** * class Material *)
(* ===================================================================== *)

Module Material.

Import Text.
Local Open Scope string_scope.

Record t : Type := { element_table : CTVoxel.element_table_t }.

Definition __init__ (voxel : CTVoxel.t) : t :=
  {| element_table := CTVoxel.element_table voxel |}.

Definition _parse_elements_dict (elements : list (scalar * scalar)) : string :=
  fold_left
    (fun string nf =>
       string ++ "     " ++ str (fst nf) ++ " " ++ str (snd nf) ++ nl)
    elements "".

Definition to_file (m : t) : IO.t unit :=
  IO.for_each (element_table m)
    (fun entry =>
       IO.write ("M" ++ str_int (fst entry) ++ nl) ;;;
       IO.write (_parse_elements_dict (snd entry))).

End Material.

(* ===================================================================== *)
(** * class Source *)
(* ===================================================================== *)

Module Source.

Import Text.
Local Open Scope string_scope.

(** An attribute is [None] until [__init__] has assigned it. *)
Record t : Type := {
  source_str : string;
  si_sp_str : option string;
  si_sp_id : option Z
}.

(** Reading an attribute of [self]. *)
Definition getattr {A} (field : option A) (name : string) : result A :=
  match field with
  | Some v => Ok v
  | None => Raise (AttributeError name)
  end.

(** The elements that iterating over a configuration value yields, as
    printed: the entries of a list, the characters of a string; a number
    is not iterable. *)
Definition iter_item (v : Config.item) : result (list string) :=
  match v with
  | Config.Items l => Ok (List.map str l)
  | Config.Scalar (SStr s) =>
      Ok (List.map (fun c => String c "") (list_ascii_of_string s))
  | Config.Scalar _ => Raise TypeError
  end.

Definition rows (xs ys : list string) : string :=
  fold_left
    (fun acc xy => acc ++ "     " ++ fst xy ++ "     " ++ snd xy ++ nl)
    (combine xs ys) "".

Definition _parse_si_sp (si_sp_id : Z) (si sp : Config.item) : result string :=
  let si_sp_str :=
    "#     SI" ++ str_int si_sp_id ++ "     SP" ++ str_int si_sp_id ++ nl in
  xs <- iter_item si ;;
  ys <- iter_item sp ;;
  Ok (si_sp_str ++ rows xs ys).

Definition init_state : Type := (string * string * Z)%type.

(** One turn of the loop over [source_config.items()]. *)
Definition init_entry (st : init_state)
    (entry : string * Config.source_value) : result init_state :=
  let '(source_str, si_sp_str, si_sp_id) := st in
  let (key, value) := entry in
  match value with
  | Config.Dist d =>
      let si_sp_id := (si_sp_id + 1)%Z in
      let source_str :=
        source_str ++ "     " ++ key ++ "=D" ++ str_int si_sp_id ++ nl in
      si <- Config.get (dict_get String.eqb d "si") "si" ;;
      sp <- Config.get (dict_get String.eqb d "sp") "sp" ;;
      table <- _parse_si_sp si_sp_id si sp ;;
      Ok (source_str, si_sp_str ++ table, si_sp_id)
  | Config.Direct v =>
      Ok (source_str ++ "     " ++ key ++ "=" ++ _list_to_str v ++ nl,
          si_sp_str, si_sp_id)
  end.

Fixpoint init_entries (st : init_state) (entries : Config.source_config)
  : result init_state :=
  match entries with
  | [] => Ok st
  | e :: rest => st' <- init_entry st e ;; init_entries st' rest
  end.

Definition __init__ (source_config : option Config.source_config)
  : result t :=
  let source_str := "SDEF" ++ nl in
  match source_config with
  | None =>
      (* [return] before [si_sp_str] and [si_sp_id] are assigned *)
      Ok {| source_str := source_str; si_sp_str := None; si_sp_id := None |}
  | Some entries =>
      st <- init_entries (source_str, "", 0%Z) entries ;;
      let '(source_str, si_sp_str, si_sp_id) := st in
      Ok {| source_str := source_str;
            si_sp_str := Some si_sp_str;
            si_sp_id := Some si_sp_id |}
  end.

Definition to_file (s : t) : IO.t unit :=
  IO.write (source_str s) ;;;
  text <~ IO.lift (getattr (si_sp_str s) "si_sp_str") ;;
  IO.write text.

End Source.

(* ===================================================================== *)
(** * class Tally *)
(* ===================================================================== *)

Module Tally.

Import Text.
Local Open Scope string_scope.

Record t : Type := {
  config : option Config.tally_config;
  mode_card : option string;
  size : option (list Z);
  mesh_origin : option (list Q);
  mesh_limit : option (list Q)
}.

Definition __init__ (geom : Geometry.t) (mode : list string)
    (tally_config : option Config.tally_config) : t :=
  match tally_config with
  | None =>
      {| config := None; mode_card := None; size := None;
         mesh_origin := None; mesh_limit := None |}
  | Some _ =>
      {| config := tally_config;
         mode_card := Some ("mode " ++ join " " mode);
         size := Some (Geometry.size geom);
         mesh_origin := Some (Geometry.phantom_origin geom);
         mesh_limit := Some (Geometry.phantom_limit geom) |}
  end.

Definition _parse_de_df (de df : list scalar) (id : string) : string :=
  let de_df_str := "#     DE" ++ id ++ "     DF" ++ id ++ nl in
  de_df_str ++ Source.rows (List.map str de) (List.map str df).

(** [self.attr[i]] *)
Definition attr_at {A} (field : option (list A)) (name : string) (i : nat)
  : IO.t A :=
  IO.lift (v <- Source.getattr field name ;; Np.vec_get v i).

(** The four lines of the mesh itself. *)
Definition write_mesh (t : t) (id : string) (value : Config.tally_entry)
  : IO.t unit :=
  o0 <~ attr_at (mesh_origin t) "mesh_origin" 0 ;;
  o1 <~ attr_at (mesh_origin t) "mesh_origin" 1 ;;
  o2 <~ attr_at (mesh_origin t) "mesh_origin" 2 ;;
  IO.write ("fmesh" ++ id ++ "4:" ++ str (Config.particle value)
              ++ " geom=XYZ origin=" ++ format_3f o0 ++ " " ++ format_3f o1
              ++ " " ++ format_3f o2 ++ nl) ;;;
  l0 <~ attr_at (mesh_limit t) "mesh_limit" 0 ;;
  n0 <~ attr_at (size t) "size" 0 ;;
  IO.write ("     imesh=" ++ format_3f l0 ++ " iints=" ++ str_int n0 ++ nl) ;;;
  l1 <~ attr_at (mesh_limit t) "mesh_limit" 1 ;;
  n1 <~ attr_at (size t) "size" 1 ;;
  IO.write ("     jmesh=" ++ format_3f l1 ++ " jints=" ++ str_int n1 ++ nl) ;;;
  l2 <~ attr_at (mesh_limit t) "mesh_limit" 2 ;;
  n2 <~ attr_at (size t) "size" 2 ;;
  IO.write ("     kmesh=" ++ format_3f l2 ++ " kints=" ++ str_int n2 ++ nl).

(** [if 'de' in keys and 'df' in keys: ...] *)
Definition write_de_df (id : string) (value : Config.tally_entry)
  : IO.t unit :=
  match Config.de value, Config.df value with
  | Some de, Some df => IO.write (_parse_de_df de df (id ++ "4"))
  | _, _ => IO.ret tt
  end.

(** [if 'fm' in keys: ...] *)
Definition write_fm (id : string) (value : Config.tally_entry) : IO.t unit :=
  match Config.fm value with
  | Some fm => IO.write ("FM" ++ id ++ "4  " ++ _list_to_str fm ++ nl)
  | None => IO.ret tt
  end.

(** The body of the loop over [self.config.items()]. *)
Definition write_entry (t : t) (entry : string * Config.tally_entry)
  : IO.t unit :=
  let (id, value) := entry in
  write_mesh t id value ;;;
  write_de_df id value ;;;
  write_fm id value.

Definition to_file (t : t) : IO.t unit :=
  match config t with
  | None => IO.ret tt
  | Some entries => IO.for_each entries (write_entry t)
  end.

End Tally.

(* ===================================================================== *)
(** * class OutControl *)
(* ===================================================================== *)

Module OutControl.

Import Text.
Local Open Scope string_scope.

Record t : Type := { control_str : string }.

Definition __init__ (control_config : option Config.out_config) : t :=
  match control_config with
  | None => {| control_str := "" |}
  | Some entries =>
      {| control_str :=
           fold_left
             (fun acc kv => acc ++ fst kv ++ " " ++ _list_to_str (snd kv) ++ nl)
             entries "" |}
  end.

Definition to_file (o : t) : IO.t unit := IO.write (control_str o).

End OutControl.

(* ===================================================================== *)
(** * class MCNPGenerator *)
(* ===================================================================== *)

Module MCNPGenerator.

Import Text.
Local Open Scope string_scope.

(** The attributes that [init_MC_module] assigns. *)
Record modules : Type := {
  voxel : CTVoxel.t;
  material : Material.t;
  geom : Geometry.t;
  source : Source.t;
  tally : Tally.t;
  out : OutControl.t
}.

(** [if card not in keys: self.config[card] = None] *)
Definition default_card {A} (card : option (option A)) : option (option A) :=
  match card with
  | None => Some None
  | Some v => Some v
  end.

Definition has_key {A} (field : option A) : bool :=
  match field with Some _ => true | None => false end.

(** The loop over [['source', 'tally', 'outcontrol']]. *)
Definition default_cards (config : Config.t) : Config.t :=
  {| Config.material := Config.material config;
     Config.mode := Config.mode config;
     Config.source := default_card (Config.source config);
     Config.tally := default_card (Config.tally config);
     Config.outcontrol := default_card (Config.outcontrol config) |}.

(** The constructors called after the configuration has been completed. *)
Definition build_modules (ct : Sitk.Image) (config : Config.t)
  : result modules :=
  material_config <- Config.get (Config.material config) "material" ;;
  voxel <- CTVoxel.__init__ ct material_config ;;
  let material := Material.__init__ voxel in
  mode <- Config.get (Config.mode config) "mode" ;;
  geom <- Geometry.__init__ voxel mode ;;
  source_config <- Config.get (Config.source config) "source" ;;
  source <- Source.__init__ source_config ;;
  tally_config <- Config.get (Config.tally config) "tally" ;;
  let tally := Tally.__init__ geom mode tally_config in
  control_config <- Config.get (Config.outcontrol config) "outcontrol" ;;
  Ok {| voxel := voxel; material := material; geom := geom;
        source := source; tally := tally;
        out := OutControl.__init__ control_config |}.

(** [init_MC_module]: the configuration as the call leaves it, and the
    modules or the exception raised. *)
Definition init_MC_module (ct : Sitk.Image) (config : Config.t)
  : Config.t * result modules :=
  if has_key (Config.material config) && has_key (Config.mode config)
  then let config := default_cards config in
       (config, build_modules ct config)
  else (config, Raise AssertionError).

(** [to_file], inside [with open(self.path, "w") as f]. *)
Definition to_file (m : modules) : IO.t unit :=
  IO.write ("c Geometry" ++ nl) ;;;
  Geometry.to_file (geom m) ;;;
  IO.write nl ;;;
  IO.write ("c Data" ++ nl) ;;;
  Material.to_file (material m) ;;;
  Source.to_file (source m) ;;;
  Tally.to_file (tally m) ;;;
  OutControl.to_file (out m) ;;;
  IO.write nl.

(** The outcome of [run]: the configuration as left behind, the deck file
    ([None] when it was never opened, else its content, which starts
    empty because the file is opened for writing), and the result. *)
Record outcome : Type := {
  config_after : Config.t;
  deck : option string;
  returned : result unit
}.

Definition run (ct : Sitk.Image) (config : Config.t) : outcome :=
  let (config', r) := init_MC_module ct config in
  match r with
  | Raise e => {| config_after := config'; deck := None; returned := Raise e |}
  | Ok m =>
      let (text, r') := to_file m "" in
      {| config_after := config'; deck := Some text; returned := r' |}
  end.

End MCNPGenerator.

(* ===================================================================== *)
(** * Reading a deck back *)
(* ===================================================================== *)

(** The reader's side of the round-trip and of the deck scenarios: the
    fill list is read back by splitting on white space and parsing each
    field as an integer; a block is present when its keyword occurs. *)
Module Reader.

Local Open Scope string_scope.

(** The ASCII characters that [str.split()] treats as white space. *)
Definition is_space (c : ascii) : bool :=
  match c with
  | " " | "009" | "010" | "011" | "012" | "013"
  | "028" | "029" | "030" | "031" => true
  | _ => false
  end%char.

(** [tokens s cur]: the fields of [s], [cur] being the field read so
    far. *)
Fixpoint tokens (s : string) (cur : string) : list string :=
  match s with
  | EmptyString => match cur with EmptyString => [] | _ => [cur] end
  | String c s' =>
      if is_space c
      then match cur with
           | EmptyString => tokens s' ""
           | _ => cur :: tokens s' ""
           end
      else tokens s' (cur ++ String c "")
  end.

(** [text.split()] *)
Definition split (text : string) : list string := tokens text "".




(** Every character of [s] satisfies [p]. *)
Fixpoint all_chars (p : ascii -> bool) (s : string) : bool :=
  match s with
  | EmptyString => true
  | String c s' => p c && all_chars p s'
  end.

(** [needle in text] *)
Fixpoint contains (needle text : string) : bool :=
  match text with
  | EmptyString => String.prefix needle ""
  | String _ rest => String.prefix needle text || contains needle rest
  end.

End Reader.

(* ===================================================================== *)
(** * Concrete inputs *)
(* ===================================================================== *)

Module Examples.

Local Open Scope string_scope.
Local Open Scope Z_scope.

Definition tissue (hu : list Z) (rho : string) : Config.material_entry :=
  {| Config.hu_interval := Some hu;
     Config.nucleon := Some [SInt 1001; SInt 8016];
     Config.fraction := Some [SFloat "0.112"; SFloat "0.888"];
     Config.density := Some (SFloat rho) |}.

(** Two materials with the boundaries -1000, 0, 3000. *)
Definition two_materials : Config.material_config :=
  [("1", tissue [-1000; 0] "-0.00129"); ("2", tissue [0; 3000] "-1.0")].

(** One material that carries all three boundaries. *)
Definition one_material : Config.material_config :=
  [("1", tissue [-1000; 0; 3000] "-1.0")].

(** The second material lacks its [density]. *)
Definition no_density : Config.material_config :=
  [("1", tissue [-1000; 0] "-0.00129");
   ("2", {| Config.hu_interval := Some [0; 3000];
            Config.nucleon := Some [SInt 1001; SInt 8016];
            Config.fraction := Some [SFloat "0.112"; SFloat "0.888"];
            Config.density := None |})].

(** A row of two voxels, 20 mm apart: -1500 HU and 5000 HU. *)
Definition row : Sitk.Image :=
  {| Sitk.nx := 2; Sitk.ny := 1; Sitk.nz := 1;
     Sitk.sx := 20; Sitk.sy := 20; Sitk.sz := 20;
     Sitk.pixel := fun x _ _ => if (x =? 0)%nat then -1500 else 5000 |}.

(** A cube of [n] voxels per axis with [mm] millimetres between voxels;
    the intensities alternate along x between -500 HU and 500 HU. *)
Definition cube (n : nat) (mm : Q) : Sitk.Image :=
  {| Sitk.nx := n; Sitk.ny := n; Sitk.nz := n;
     Sitk.sx := mm; Sitk.sy := mm; Sitk.sz := mm;
     Sitk.pixel := fun x _ _ => if Nat.even x then -500 else 500 |}.

(** A configuration with the [material] and [mode] keys only. *)
Definition minimal (mc : Config.material_config) : Config.t :=
  {| Config.material := Some mc;
     Config.mode := Some ["n"; "p"];
     Config.source := None;
     Config.tally := None;
     Config.outcontrol := None |}.

(** The same with an empty [source] table. *)
Definition with_empty_source (mc : Config.material_config) : Config.t :=
  {| Config.material := Some mc;
     Config.mode := Some ["n"; "p"];
     Config.source := Some (Some []);
     Config.tally := None;
     Config.outcontrol := None |}.



(** The classifier object for an image of any dimension with the given
    voxel counts and spacing, every voxel being air (-1000 HU, material
    1). *)
Definition voxel_of (size : list Z) (spacing : list Q) : CTVoxel.t :=
  let shape := rev (List.map Z.to_nat size) in
  {| CTVoxel.array :=
       {| Np.shape := shape;
          Np.data := repeat (-1000) (Np.prod_nat shape) |};
     CTVoxel.spacing := spacing;
     CTVoxel.size := size;
     CTVoxel.hu_interval := [-1000; 0];
     CTVoxel.element_table := [(1, [(SInt 7014, SFloat "0.78")])];
     CTVoxel.density_table := [(1, SFloat "-0.00129")];
     CTVoxel.keys := [1];
     CTVoxel.index_map :=
       {| Np.shape := shape; Np.data := repeat 1 (Np.prod_nat shape) |} |}.

(** The deck that [run] leaves behind for [cube 2 20] and
    [minimal two_materials]: it stops after the [SDEF] line. *)
Definition deck_without_source : string :=
"c Geometry
1  1  -0.00129  -11 12 -13 14 -15 16  u=1  imp:n,p=1
881  0  #1  u=1  imp:n,p=1
2  2  -1.0  -11 12 -13 14 -15 16  u=2  imp:n,p=1
882  0  #2  u=2  imp:n,p=1
998  0  -11 12 -13 14 -15 16 u=999 imp:n,p=1
     lat=1  fill=0:1 0:1 0:1
     1 2 1 2 1 2 1 2
999  0  -111 112 -113 114 -115 116  fill=999 imp:n,p=1
1000  1  -0.00129  -1000 #999 imp:n,p=1
9999  0  1000  imp:n,p=0

11    px    1.000
12    px    -1.000
13    py    1.000
14    py    -1.000
15    pz    1.000
16    pz    -1.000
111  px  3.000
112  px  -1.000
113  py  3.000
114  py  -1.000
115  pz  3.000
116  pz  -1.000
1000  so  102.0

c Data
M1
     1001 0.112
     8016 0.888
M2
     1001 0.112
     8016 0.888
SDEF
".

End Examples.

(* ===================================================================== *)
(** * main.py: where each deck is written *)
(* ===================================================================== *)

(** The names computed by the three branches of [main.py]:
    [os.path.basename(path).partition(".")[0]] and
    [os.path.join(output_path, base_name)], with the POSIX versions of
    [os.path]. *)
Module Main.

Local Open Scope string_scope.

(** [s.rfind(c)], scanning from the left: [pos] is the index of the head
    of [s], [found] the last index seen so far (-1 for none). *)
Fixpoint rfind_from (c : ascii) (s : string) (pos found : Z) : Z :=
  match s with
  | EmptyString => found
  | String a rest =>
      rfind_from c rest (pos + 1)%Z (if Ascii.eqb a c then pos else found)
  end.

Definition rfind (c : ascii) (s : string) : Z := rfind_from c s 0 (-1).

(** [s[i:]] *)
Fixpoint drop (i : nat) (s : string) : string :=
  match i, s with
  | O, _ => s
  | S i', String _ rest => drop i' rest
  | S _, EmptyString => EmptyString
  end.

(** [posixpath.basename]: [i = p.rfind('/') + 1; return p[i:]] *)
Definition basename (p : string) : string :=
  let i := (rfind "/" p + 1)%Z in
  drop (Z.to_nat i) p.

(** [s.partition(sep)[0]]: the part before the first [sep], all of [s]
    when there is none. *)
Fixpoint partition_head (sep : ascii) (s : string) : string :=
  match s with
  | EmptyString => EmptyString
  | String a rest =>
      if Ascii.eqb a sep then EmptyString
      else String a (partition_head sep rest)
  end.

Fixpoint endswith (c : ascii) (s : string) : bool :=
  match s with
  | EmptyString => false
  | String a EmptyString => Ascii.eqb a c
  | String _ rest => endswith c rest
  end.

(** [posixpath.join(a, b)] *)
Definition path_join (a b : string) : string :=
  match b with
  | String "/" _ => b
  | _ =>
      match a with
      | EmptyString => a ++ b
      | _ => if endswith "/" a then a ++ b else a ++ "/" ++ b
      end
  end.

(** [base_name] of the list branch and of the single-path branch. *)
Definition base_name (one_ct_path : string) : string :=
  partition_head "." (basename one_ct_path).

(** The output path handed to [generate_process] by those branches. *)
Definition out_path (output_path one_ct_path : string) : string :=
  path_join output_path (base_name one_ct_path).

(** The directory branch: the input and output paths for the directory
    entry [ct_file]. *)
Definition dir_paths (ct_dir output_path ct_file : string)
  : string * string :=
  (path_join ct_dir ct_file,
   path_join output_path (partition_head "." ct_file)).

End Main.

(* ===================================================================== *)
(** * Reading a deck line by line *)
(* ===================================================================== *)

Module Layout.

Local Open Scope string_scope.

Definition flush (cur : string) : list string :=
  match cur with
  | EmptyString => []
  | _ => [cur]
  end.

(** The fields of every line of [s], a line ending at each newline;
    [cur] is the field and [row] the line read so far.  An empty line
    gives an empty row. *)
Fixpoint rows (s cur : string) (row : list string) : list (list string) :=
  match s with
  | EmptyString =>
      match (row ++ flush cur)%list with
      | [] => []
      | last_row => [last_row]
      end
  | String c s' =>
      if Ascii.eqb c "010"
      then (row ++ flush cur)%list :: rows s' "" []
      else if Reader.is_space c
           then rows s' "" (row ++ flush cur)%list
           else rows s' (cur ++ String c "") row
  end.

Definition lines (text : string) : list (list string) := rows text "" [].

(** [values] cut into rows of [width] values, [row] being the row under
    way. *)
Fixpoint group_rows (width : nat) (values : list Z) (row : list Z)
  : list (list Z) :=
  match values with
  | [] => match row with [] => [] | _ => [row] end
  | v :: rest =>
      if (List.length (row ++ [v]) =? width)%nat
      then (row ++ [v])%list :: group_rows width rest []
      else group_rows width rest (row ++ [v])%list
  end.

End Layout.

(* ===================================================================== *)
(** * Predicates used in the statements and proofs *)
(* ===================================================================== *)

Definition not_space (c : ascii) : bool := negb (Reader.is_space c).

(** A text that is empty or starts with white space. *)
Definition starts_blank (s : string) : Prop :=
  match s with
  | EmptyString => True
  | String c _ => Reader.is_space c = true
  end.

(** A writer that returns normally, whatever the file holds. *)
Definition succeeds (c : IO.t unit) : Prop :=
  forall file : string, exists file' : string, c file = (file', Ok tt).

(** A writer that returns normally after appending [text]. *)
Definition appends (c : IO.t unit) (text : string) : Prop :=
  forall file : string, c file = ((file ++ text)%string, Ok tt).

(** A material entry whose key is an integer and that has its
    [hu_interval], [nucleon] and [fraction]. *)
Definition complete_but_density (entry : string * Config.material_entry)
  : Prop :=
  (exists k, int_of_str (fst entry) = Ok k) /\
  Config.hu_interval (snd entry) <> None /\
  Config.nucleon (snd entry) <> None /\
  Config.fraction (snd entry) <> None.

Definition lacks_density (entry : string * Config.material_entry) : Prop :=
  Config.density (snd entry) = None.


(** A material entry with all four fields and an integer key. *)
Definition complete (entry : string * Config.material_entry) : Prop :=
  complete_but_density entry /\ Config.density (snd entry) <> None.

(** The boundaries of a material table, in configuration order. *)
Definition all_boundaries (mc : Config.material_config) : list Z :=
  flat_map (fun entry =>
              match Config.hu_interval (snd entry) with
              | Some hu => hu
              | None => []
              end) mc.





(** A character of a printed entry that [str.split] keeps inside a
    field: an ASCII character that is not white space. *)
Definition plain_char (c : ascii) : bool :=
  not_space c && (nat_of_ascii c <? 128)%nat.

(** A scalar that is not a float.  As dictionary keys, such scalars are
    equal in Python exactly when [scalar_eqb] holds (a float is also
    equal to the integer of the same value). *)
Definition exact_key (a : scalar) : bool :=
  match a with
  | SFloat _ => false
  | _ => true
  end.

(** Every key for which cell cards are written has a density. *)
Definition keys_have_density (keys : list Z)
    (density_table : CTVoxel.density_table_t) : Prop :=
  forall k, In k keys -> dict_get Z.eqb density_table k <> None.

(* ===================================================================== *)
(** * Properties of the built-ins *)
(* ===================================================================== *)

Section BisectFacts.

Variables (a : list Z) (x : Z).

Lemma bisect_loop_bounds (lo hi : nat) :
  (lo <= hi)%nat ->
  (lo <= bisect_loop a x lo hi <= hi)%nat.
Proof.
  funelim (bisect_loop a x lo hi); intros Hle; [|lia].
  pose proof (Nat.div_le_lower_bound (lo + hi) 2 lo).
  pose proof (Nat.Div0.div_lt_upper_bound (lo + hi) 2 hi).
  destruct (nth ((lo + hi) / 2) a 0 <? x)%Z.
  - specialize (H ltac:(lia)). lia.
  - specialize (H0 ltac:(lia)). lia.
Qed.

(** When no element of the window is below [x] the search ends at its
    left end. *)
Lemma bisect_loop_none_below (lo hi : nat) :
  (forall i, (lo <= i < hi)%nat -> (x <= nth i a 0)%Z) ->
  bisect_loop a x lo hi = lo.
Proof.
  funelim (bisect_loop a x lo hi); intros Hall; [|reflexivity].
  pose proof (Nat.div_le_lower_bound (lo + hi) 2 lo).
  pose proof (Nat.Div0.div_lt_upper_bound (lo + hi) 2 hi).
  destruct (nth ((lo + hi) / 2) a 0 <? x)%Z eqn:Hcmp.
  - apply Z.ltb_lt in Hcmp.
    specialize (Hall ((lo + hi) / 2)%nat ltac:(lia)). lia.
  - apply H0. intros i Hi. apply Hall. lia.
Qed.

(** On a non-decreasing list the search keeps "everything left of [lo]
    is below [x], everything from [hi] on is not". *)
Lemma bisect_loop_sorted (lo hi : nat) :
  (forall i j, (i <= j < List.length a)%nat -> (nth i a 0 <= nth j a 0)%Z) ->
  (lo <= hi <= List.length a)%nat ->
  (forall i, (i < lo)%nat -> (nth i a 0 < x)%Z) ->
  (forall i, (hi <= i < List.length a)%nat -> (x <= nth i a 0)%Z) ->
  (forall i, (i < bisect_loop a x lo hi)%nat -> (nth i a 0 < x)%Z) /\
  (forall i, (bisect_loop a x lo hi <= i < List.length a)%nat ->
             (x <= nth i a 0)%Z).
Proof.
  funelim (bisect_loop a x lo hi); intros Hmono Hle Hleft Hright.
  - pose proof (Nat.div_le_lower_bound (lo + hi) 2 lo).
    pose proof (Nat.Div0.div_lt_upper_bound (lo + hi) 2 hi).
    destruct (nth ((lo + hi) / 2) a 0 <? x)%Z eqn:Hcmp.
    + apply Z.ltb_lt in Hcmp.
      apply H; auto; [lia|].
      intros i Hi.
      specialize (Hmono i ((lo + hi) / 2)%nat ltac:(lia)). lia.
    + apply Z.ltb_ge in Hcmp.
      apply H0; auto; [lia|].
      intros i Hi.
      specialize (Hmono ((lo + hi) / 2)%nat i ltac:(lia)). lia.
  - split; auto. intros i Hi. apply Hright. lia.
Qed.

End BisectFacts.

Lemma bisect_left_le_length (a : list Z) (x : Z) :
  (bisect_left a x <= List.length a)%nat.
Proof.
  unfold bisect_left.
  pose proof (@bisect_loop_bounds a x 0 (List.length a)). lia.
Qed.

(** The left-most position, when nothing in the list is below [x]. *)
Lemma bisect_left_none_below (a : list Z) (x : Z) :
  Forall (fun y => (x <= y)%Z) a -> bisect_left a x = 0%nat.
Proof.
  intros Hall. unfold bisect_left. apply bisect_loop_none_below.
  intros i Hi. rewrite Forall_forall in Hall. apply Hall, nth_In. lia.
Qed.

Lemma StronglySorted_nth_lt (l : list Z) :
  StronglySorted Z.lt l ->
  forall i j, (i < j < List.length l)%nat -> (nth i l 0 < nth j l 0)%Z.
Proof.
  induction 1 as [|y l Hs IH Hall]; intros i j Hij; simpl in *; [lia|].
  destruct j as [|j]; [lia|].
  destruct i as [|i].
  - rewrite Forall_forall in Hall. apply Hall, nth_In. lia.
  - apply IH. lia.
Qed.

(** On a strictly increasing list, the last element is found at the last
    position. *)
Lemma bisect_left_last (a : list Z) (x : Z) :
  StronglySorted Z.lt (a ++ [x]) ->
  bisect_left (a ++ [x]) x = List.length a.
Proof.
  intros Hs.
  pose proof (StronglySorted_nth_lt Hs) as Hlt.
  assert (Hlen : List.length (a ++ [x]) = S (List.length a))
    by (rewrite length_app; simpl; lia).
  assert (Hlast : nth (List.length a) (a ++ [x]) 0%Z = x)
    by (rewrite nth_middle; reflexivity).
  destruct (@bisect_loop_sorted (a ++ [x]) x 0 (List.length (a ++ [x])))
    as [Hl Hr].
  - intros i j Hij. destruct (Nat.eq_dec i j) as [->|]; [lia|].
    specialize (Hlt i j ltac:(lia)). lia.
  - lia.
  - intros i Hi; lia.
  - intros i Hi; lia.
  - fold (bisect_left (a ++ [x]) x) in Hl, Hr.
    pose proof (bisect_left_le_length (a ++ [x]) x) as Hb.
    set (r := bisect_left (a ++ [x]) x) in *.
    destruct (Nat.lt_trichotomy r (List.length a)) as [Hc|[Hc|Hc]]; auto.
    + specialize (Hr r ltac:(lia)).
      specialize (Hlt r (List.length a) ltac:(lia)). lia.
    + specialize (Hl (List.length a) Hc). lia.
Qed.

Lemma fold_min_spec (rest : list Z) (x : Z) :
  (fold_left Z.min rest x <= x)%Z /\
  Forall (fun y => (fold_left Z.min rest x <= y)%Z) rest /\
  In (fold_left Z.min rest x) (x :: rest).
Proof.
  revert x; induction rest as [|y rest IH]; intros x; simpl.
  - repeat split; auto; lia.
  - destruct (IH (Z.min x y)) as (H1 & H2 & H3). repeat split.
    + lia.
    + constructor; [lia|exact H2].
    + destruct H3 as [H3|H3]; [|auto].
      destruct (Z.min_spec x y) as [[_ E]|[_ E]]; [left|right; left]; congruence.
Qed.

Lemma fold_max_spec (rest : list Z) (x : Z) :
  (x <= fold_left Z.max rest x)%Z /\
  Forall (fun y => (y <= fold_left Z.max rest x)%Z) rest /\
  In (fold_left Z.max rest x) (x :: rest).
Proof.
  revert x; induction rest as [|y rest IH]; intros x; simpl.
  - repeat split; auto; lia.
  - destruct (IH (Z.max x y)) as (H1 & H2 & H3). repeat split.
    + lia.
    + constructor; [lia|exact H2].
    + destruct H3 as [H3|H3]; [|auto].
      destruct (Z.max_spec x y) as [[_ E]|[_ E]]; [right; left|left]; congruence.
Qed.

Lemma py_min_spec (l : list Z) (lo : Z) :
  py_min l = Ok lo -> Forall (fun y => (lo <= y)%Z) l /\ In lo l.
Proof.
  destruct l as [|x rest]; simpl; [discriminate|].
  intros [= <-]. destruct (fold_min_spec rest x) as (H1 & H2 & H3).
  split; [constructor|]; assumption.
Qed.

Lemma py_max_spec (l : list Z) (hi : Z) :
  py_max l = Ok hi -> Forall (fun y => (y <= hi)%Z) l /\ In hi l.
Proof.
  destruct l as [|x rest]; simpl; [discriminate|].
  intros [= <-]. destruct (fold_max_spec rest x) as (H1 & H2 & H3).
  split; [constructor|]; assumption.
Qed.

(** The largest element of a strictly increasing list is its last. *)
Lemma py_max_sorted (l : list Z) (hi : Z) :
  py_max l = Ok hi -> StronglySorted Z.lt l ->
  exists a, l = (a ++ [hi])%list.
Proof.
  intros Hmax Hs.
  destruct (py_max_spec _ Hmax) as [Hall Hin].
  destruct (exists_last (l := l)) as (a & x & ->).
  { intros ->; inversion Hin. }
  exists a. f_equal. f_equal.
  assert (Hx : (x <= hi)%Z).
  { rewrite Forall_forall in Hall. apply Hall, in_or_app; right; left; auto. }
  apply in_app_or in Hin. destruct Hin as [Hin|[Hin|[]]]; [|auto].
  apply In_nth with (d := 0%Z) in Hin. destruct Hin as (i & Hi & Hnth).
  pose proof (@StronglySorted_nth_lt _ Hs i (List.length a)) as Hlt.
  rewrite length_app in Hlt; simpl in Hlt.
  rewrite app_nth1, nth_middle, Hnth in Hlt by lia.
  specialize (Hlt ltac:(lia)). lia.
Qed.

(* ===================================================================== *)
(** * Properties of the array model *)
(* ===================================================================== *)

Lemma flat_map_seq_blocks (p n s : nat) :
  flat_map (fun i => seq (i * p) p) (seq s n) = seq (s * p) (n * p).
Proof.
  revert s; induction n as [|n IH]; intros s; [reflexivity|].
  cbn [seq flat_map]. rewrite IH.
  replace (S n * p)%nat with (p + n * p)%nat by lia.
  rewrite seq_app. do 2 f_equal. lia.
Qed.

Lemma map_add_seq (k s p : nat) :
  List.map (fun r => (k + r)%nat) (seq s p) = seq (k + s) p.
Proof.
  revert s; induction p as [|p IH]; intros s; simpl; [reflexivity|].
  rewrite IH. do 2 f_equal. lia.
Qed.

Lemma map_flat_map {A B C} (f : B -> C) (g : A -> list B) (l : list A) :
  List.map f (flat_map g l) = flat_map (fun x => List.map f (g x)) l.
Proof.
  induction l as [|x l IH]; simpl; [reflexivity|].
  now rewrite map_app, IH.
Qed.

(** Walking the multi-indices in C order visits the buffer offsets
    0, 1, 2, ... *)
Lemma ravel_ndindex (sh : list nat) :
  List.map (Np.ravel sh) (Np.ndindex sh) = seq 0 (Np.prod_nat sh).
Proof.
  induction sh as [|n rest IH]; simpl; [reflexivity|].
  rewrite map_flat_map.
  rewrite (flat_map_ext _ (fun i => seq (i * Np.prod_nat rest) (Np.prod_nat rest))).
  - now rewrite flat_map_seq_blocks.
  - intros i. rewrite map_map.
    rewrite <- (map_map (Np.ravel rest) (fun r => (i * Np.prod_nat rest + r)%nat)).
    rewrite IH, map_add_seq. f_equal. lia.
Qed.

Lemma list_set_length (l : list Z) (i : nat) (v : Z) :
  List.length (Np.list_set l i v) = List.length l.
Proof.
  revert i; induction l as [|x l IH]; intros [|i]; simpl; auto.
Qed.

Lemma list_set_middle (l1 l2 : list Z) (y v : Z) :
  Np.list_set (l1 ++ y :: l2) (List.length l1) v = (l1 ++ v :: l2)%list.
Proof.
  induction l1 as [|x l1 IH]; simpl; [reflexivity|]. now rewrite IH.
Qed.

(** Filling a zeroed buffer position by position, each with [f] of the
    source element at that position, gives [map f] of the source. *)
Lemma fill_by_offset (f : Z -> Z) (done todo : list Z) :
  fold_left
    (fun acc k => Np.list_set acc k (f (nth k (done ++ todo) 0%Z)))
    (seq (List.length done) (List.length todo))
    (List.map f done ++ repeat 0%Z (List.length todo))%list
  = List.map f (done ++ todo).
Proof.
  revert done; induction todo as [|x todo IH]; intros done.
  - simpl. now rewrite !app_nil_r.
  - cbn [List.length seq fold_left repeat].
    rewrite <- (length_map f done) at 2.
    rewrite list_set_middle, nth_middle.
    specialize (IH (done ++ [x])%list).
    rewrite length_app, Nat.add_1_r, map_app in IH.
    rewrite <- !app_assoc in IH. simpl in IH. exact IH.
Qed.

(** The loop of [_convert_hu_to_material], on the buffers. *)
Lemma convert_loop_data (g : Z -> Z) (src : Np.ndarray)
    (idxs : list (list nat)) (acc : Np.ndarray) :
  Np.shape acc = Np.shape src ->
  let r := fold_left
             (fun index_map idx =>
                Np.setitem index_map idx (g (Np.getitem src idx)))
             idxs acc in
  Np.shape r = Np.shape src /\
  Np.data r =
    fold_left (fun l k => Np.list_set l k (g (nth k (Np.data src) 0%Z)))
              (List.map (Np.ravel (Np.shape src)) idxs) (Np.data acc).
Proof.
  revert acc; induction idxs as [|idx idxs IH]; intros acc Hsh; simpl.
  - auto.
  - destruct (IH (Np.setitem acc idx (g (Np.getitem src idx))) Hsh)
      as [H1 H2].
    split; [exact H1|]. rewrite H2. simpl. unfold Np.getitem.
    now rewrite Hsh.
Qed.

Lemma convert_spec (array : Np.ndarray) (hu : list Z) :
  Np.wf array ->
  Np.shape (CTVoxel._convert_hu_to_material array hu) = Np.shape array /\
  Np.data (CTVoxel._convert_hu_to_material array hu) =
    List.map (fun x => Np.to_uint32 (CTVoxel.material_index hu x))
             (Np.data array).
Proof.
  intros Hwf. unfold CTVoxel._convert_hu_to_material.
  destruct (@convert_loop_data
              (fun x => Np.to_uint32 (CTVoxel.material_index hu x))
              array (Np.ndindex (Np.shape array)) (Np.zeros_like array)
              eq_refl) as [H1 H2].
  split; [exact H1|]. rewrite H2, ravel_ndindex. unfold Np.wf in Hwf.
  rewrite <- Hwf. simpl.
  exact (fill_by_offset
           (fun x => Np.to_uint32 (CTVoxel.material_index hu x))
           [] (Np.data array)).
Qed.

Lemma length_flat_map_const {A B} (f : A -> list B) (m : nat) (l : list A) :
  (forall x, List.length (f x) = m) ->
  List.length (flat_map f l) = (List.length l * m)%nat.
Proof.
  intros Hf; induction l as [|x l IH]; simpl; [reflexivity|].
  now rewrite length_app, Hf, IH.
Qed.

Lemma GetArrayFromImage_wf (ct : Sitk.Image) :
  Np.wf (Sitk.GetArrayFromImage ct).
Proof.
  unfold Np.wf; simpl.
  rewrite (@length_flat_map_const _ _ _ (Sitk.ny ct * Sitk.nx ct)%nat).
  - rewrite length_seq. lia.
  - intros z. rewrite (@length_flat_map_const _ _ _ (Sitk.nx ct)).
    + now rewrite length_seq.
    + intros y. now rewrite length_map, length_seq.
Qed.

Lemma clip_wf (a : Np.ndarray) (lo hi : Z) : Np.wf a -> Np.wf (Np.clip a lo hi).
Proof. unfold Np.wf; simpl. now rewrite length_map. Qed.

Lemma nth_flat_map_blocks {B} (f : nat -> list B) (m n i j s : nat) (d : B) :
  (forall k, List.length (f k) = m) -> (i < n)%nat -> (j < m)%nat ->
  nth (i * m + j) (flat_map f (seq s n)) d = nth j (f (s + i)%nat) d.
Proof.
  intros Hlen. revert s i.
  induction n as [|n IH]; intros s i Hi Hj; [lia|].
  cbn [seq flat_map]. destruct i as [|i].
  - rewrite app_nth1 by (rewrite Hlen; lia).
    now rewrite Nat.add_0_r.
  - rewrite app_nth2 by (rewrite Hlen; lia).
    rewrite Hlen.
    replace (S i * m + j - m)%nat with (i * m + j)%nat by lia.
    rewrite IH by lia. f_equal. f_equal. lia.
Qed.

(** The array of an image holds the voxel (x, y, z) at [z, y, x]. *)
Lemma getitem_image (ct : Sitk.Image) (x y z : nat) :
  (x < Sitk.nx ct)%nat -> (y < Sitk.ny ct)%nat -> (z < Sitk.nz ct)%nat ->
  Np.getitem (Sitk.GetArrayFromImage ct) [z; y; x] = Sitk.pixel ct x y z.
Proof.
  intros Hx Hy Hz. unfold Np.getitem.
  cbn [Sitk.GetArrayFromImage Np.shape Np.data Np.ravel Np.prod_nat
       fold_right].
  replace (z * (Sitk.ny ct * (Sitk.nx ct * 1))
           + (y * (Sitk.nx ct * 1) + (x * 1 + 0)))%nat
    with (z * (Sitk.ny ct * Sitk.nx ct) + (y * Sitk.nx ct + x))%nat by lia.
  rewrite (@nth_flat_map_blocks _ _ (Sitk.ny ct * Sitk.nx ct)%nat).
  - rewrite (@nth_flat_map_blocks _ _ (Sitk.nx ct)).
    + rewrite (nth_indep _ _ (Sitk.pixel ct 0 (0 + y) (0 + z)))
        by (rewrite length_map, length_seq; lia).
      rewrite (map_nth (fun x0 => Sitk.pixel ct x0 (0 + y) (0 + z))).
      now rewrite seq_nth by lia.
    + intros k. now rewrite length_map, length_seq.
    + exact Hy.
    + exact Hx.
  - intros k. rewrite (@length_flat_map_const _ _ _ (Sitk.nx ct)).
    + now rewrite length_seq.
    + intros k'. now rewrite length_map, length_seq.
  - exact Hz.
  - nia.
Qed.

(* ===================================================================== *)
(** * The voxel classifier *)
(* ===================================================================== *)

(** What a successful [CTVoxel.__init__] has computed. *)
Lemma CTVoxel_init_inv (ct : Sitk.Image) (mc : Config.material_config)
    (v : CTVoxel.t) :
  CTVoxel.__init__ ct mc = Ok v ->
  exists raw lo hi,
    CTVoxel.parse_entries ([], [], [], []) mc
      = Ok (raw, CTVoxel.element_table v, CTVoxel.density_table v,
            CTVoxel.keys v) /\
    CTVoxel.hu_interval v = CTVoxel.first_seen raw /\
    py_min (CTVoxel.hu_interval v) = Ok lo /\
    py_max (CTVoxel.hu_interval v) = Ok hi /\
    CTVoxel.array v = Np.clip (Sitk.GetArrayFromImage ct) lo hi /\
    CTVoxel.index_map v =
      CTVoxel._convert_hu_to_material (CTVoxel.array v)
                                      (CTVoxel.hu_interval v) /\
    CTVoxel.size v = Sitk.GetSize ct /\
    CTVoxel.spacing v =
      List.map (fun s => Np.around3 (s / 20)) (Sitk.GetSpacing ct).
Proof.
  unfold CTVoxel.__init__, CTVoxel._parse_material.
  destruct (CTVoxel.parse_entries ([], [], [], []) mc)
    as [[[[raw et] dt] ks]|e]; simpl; [|discriminate].
  destruct (py_min (CTVoxel.first_seen raw)) as [lo|e] eqn:Hmin;
    simpl; [|discriminate].
  destruct (py_max (CTVoxel.first_seen raw)) as [hi|e] eqn:Hmax;
    simpl; [|discriminate].
  intros [= <-]; simpl. exists raw, lo, hi. repeat split; auto.
Qed.

Lemma material_index_range (hu : list Z) (x : Z) :
  hu <> [] ->
  (1 <= CTVoxel.material_index hu x <= Z.of_nat (List.length hu))%Z.
Proof.
  intros Hne. unfold CTVoxel.material_index.
  pose proof (bisect_left_le_length hu x).
  assert (0 < List.length hu)%nat by (destruct hu; simpl; [congruence|lia]).
  destruct (Z.eqb_spec (Z.of_nat (bisect_left hu x)) 0); lia.
Qed.

Lemma to_uint32_small (z : Z) :
  (0 <= z < 2 ^ 32)%Z -> Np.to_uint32 z = z.
Proof. intros H. unfold Np.to_uint32. now apply Z.mod_small. Qed.

(** C2 (as amended). For every image and material configuration from
    which the classifier is built, with fewer than 2^32 boundaries (so
    that an index fits the [uint32] index map): at every position of the
    volume, the material index lies in [1, len(boundaries)]; a sample
    strictly below [min(boundaries)] is clipped to it and gets index 1; a
    sample strictly above [max(boundaries)] is clipped to it and gets the
    index of [max(boundaries)] itself, which for a strictly increasing
    boundary list is [max(1, len(boundaries) - 1)], not
    [len(boundaries)]. *)
Theorem C2_clip_and_classify (ct : Sitk.Image)
    (mc : Config.material_config) (v : CTVoxel.t) :
  CTVoxel.__init__ ct mc = Ok v ->
  (Z.of_nat (List.length (CTVoxel.hu_interval v)) < 2 ^ 32)%Z ->
  exists lo hi,
    py_min (CTVoxel.hu_interval v) = Ok lo /\
    py_max (CTVoxel.hu_interval v) = Ok hi /\
    forall (i : nat) (sample : Z),
      nth_error (Np.data (Sitk.GetArrayFromImage ct)) i = Some sample ->
      exists clipped index,
        nth_error (Np.data (CTVoxel.array v)) i = Some clipped /\
        nth_error (Np.data (CTVoxel.index_map v)) i = Some index /\
        (1 <= index <= Z.of_nat (List.length (CTVoxel.hu_interval v)))%Z /\
        ((sample < lo)%Z -> clipped = lo /\ index = 1%Z) /\
        ((hi < sample)%Z ->
           clipped = hi /\
           index = CTVoxel.material_index (CTVoxel.hu_interval v) hi /\
           (StronglySorted Z.lt (CTVoxel.hu_interval v) ->
            index =
              Z.max 1 (Z.of_nat (List.length (CTVoxel.hu_interval v)) - 1))).
Proof.
  intros Hinit Hlen.
  destruct (CTVoxel_init_inv _ _ Hinit)
    as (raw & lo & hi & _ & _ & Hmin & Hmax & Harr & Himap & _).
  set (hu := CTVoxel.hu_interval v) in *.
  assert (Hne : hu <> []) by (intros E; rewrite E in Hmin; discriminate).
  destruct (py_min_spec _ Hmin) as [Hlo_all Hlo_in].
  destruct (py_max_spec _ Hmax) as [Hhi_all Hhi_in].
  assert (Hlohi : (lo <= hi)%Z).
  { rewrite Forall_forall in Hlo_all. now apply Hlo_all. }
  exists lo, hi. split; [exact Hmin|]. split; [exact Hmax|].
  intros i sample Hi.
  destruct (@convert_spec (CTVoxel.array v) hu) as [_ Hdata].
  { rewrite Harr. apply clip_wf, GetArrayFromImage_wf. }
  rewrite Himap, Hdata, Harr. cbn [Np.clip Np.data].
  exists (Np.clip1 lo hi sample),
         (CTVoxel.material_index hu (Np.clip1 lo hi sample)).
  pose proof (@material_index_range hu (Np.clip1 lo hi sample) Hne) as Hr.
  split; [now rewrite nth_error_map, Hi|].
  split.
  { rewrite !nth_error_map, Hi. simpl. f_equal.
    apply to_uint32_small. lia. }
  split; [exact Hr|].
  split.
  - intros Hlt.
    assert (Hc : Np.clip1 lo hi sample = lo) by (unfold Np.clip1; lia).
    rewrite Hc. split; [reflexivity|].
    unfold CTVoxel.material_index.
    now rewrite (bisect_left_none_below Hlo_all).
  - intros Hgt.
    assert (Hc : Np.clip1 lo hi sample = hi) by (unfold Np.clip1; lia).
    rewrite Hc. split; [reflexivity|]. split; [reflexivity|].
    intros Hs. destruct (py_max_sorted Hmax Hs) as [a Ha].
    unfold CTVoxel.material_index. rewrite Ha in *.
    rewrite bisect_left_last by exact Hs.
    rewrite length_app; simpl.
    destruct (Z.eqb_spec (Z.of_nat (List.length a)) 0); lia.
Qed.

(** C9 (as amended). The material-index volume and the clipped intensity
    volume have the same shape, both hold one element per voxel, and
    that shape is the image's size vector read backwards: the array axes
    are (z, y, x) while the size vector is (x, y, z). *)
Theorem C9_shapes (ct : Sitk.Image) (mc : Config.material_config)
    (v : CTVoxel.t) :
  CTVoxel.__init__ ct mc = Ok v ->
  Np.shape (CTVoxel.index_map v) = Np.shape (CTVoxel.array v) /\
  List.map Z.of_nat (Np.shape (CTVoxel.array v)) = rev (CTVoxel.size v) /\
  CTVoxel.size v = Sitk.GetSize ct /\
  Np.wf (CTVoxel.array v) /\ Np.wf (CTVoxel.index_map v) /\
  Z.of_nat (List.length (Np.data (CTVoxel.index_map v)))
    = Np.prod (CTVoxel.size v).
Proof.
  intros Hinit.
  destruct (CTVoxel_init_inv _ _ Hinit)
    as (raw & lo & hi & _ & _ & _ & _ & Harr & Himap & Hsize & _).
  assert (Hwf : Np.wf (CTVoxel.array v))
    by (rewrite Harr; apply clip_wf, GetArrayFromImage_wf).
  destruct (@convert_spec (CTVoxel.array v) (CTVoxel.hu_interval v) Hwf)
    as [Hsh Hdata].
  rewrite <- Himap in Hsh, Hdata.
  assert (Hwf' : Np.wf (CTVoxel.index_map v)).
  { unfold Np.wf in *. now rewrite Hsh, Hdata, length_map. }
  repeat split; auto.
  - rewrite Hsize, Harr. reflexivity.
  - unfold Np.wf in Hwf'. rewrite Hwf', Hsh, Hsize, Harr. simpl.
    unfold Np.prod, Sitk.GetSize;
      cbn [fold_left Np.prod_nat fold_right Np.shape Np.clip
           Sitk.GetArrayFromImage].
    rewrite !Nat2Z.inj_mul. simpl (Z.of_nat 1). ring.
Qed.

(* ===================================================================== *)
(** * The lattice geometry builder *)
(* ===================================================================== *)

Lemma vec_get_nth_error {A} (v : list A) (i : nat) (x : A) :
  nth_error v i = Some x -> Np.vec_get v i = Ok x.
Proof. unfold Np.vec_get. now intros ->. Qed.

Lemma vec_get_short {A} (v : list A) (i : nat) :
  (List.length v <= i)%nat -> Np.vec_get v i = Raise IndexError.
Proof.
  intros H. unfold Np.vec_get.
  now rewrite (proj2 (nth_error_None v i) H).
Qed.

(** One axis of the phantom cell, for an axis that both vectors have. *)
Lemma phantom_axis_ok (size : list Z) (spacing : list Q) (axis : nat)
    (upper lower plane sep : string) (n : Z) (s : Q) :
  nth_error size axis = Some n ->
  nth_error spacing axis = Some s ->
  exists part,
    Geometry.phantom_axis size spacing (List.map (fun n => (n / 2)%Z) size)
                          axis upper lower plane sep = Ok part /\
    Geometry.fill_range part =
      ((if (n mod 2 =? 0)%Z then str_int (- (n / 2) + 1) else str_int (n / 2))
       ++ ":" ++ str_int (n / 2) ++ sep)%string /\
    Geometry.limit part =
      (if (n mod 2 =? 0)%Z then inject_Z (n + 1) * s else inject_Z n * s)%Q.
Proof.
  intros Hn Hs. unfold Geometry.phantom_axis.
  rewrite (vec_get_nth_error _ _ Hn); cbn [Py.bind].
  assert (Hh : Np.vec_get (List.map (fun n => (n / 2)%Z) size) axis
               = Ok (n / 2)%Z).
  { apply vec_get_nth_error. now rewrite nth_error_map, Hn. }
  destruct (n mod 2 =? 0)%Z;
    rewrite (vec_get_nth_error _ _ Hs), Hh; cbn [Py.bind];
    eexists; repeat split; reflexivity.
Qed.

Lemma phantom_axis_short (size : list Z) (spacing : list Q)
    (half : list Z) (axis : nat) (upper lower plane sep : string) :
  (List.length size <= axis)%nat ->
  Geometry.phantom_axis size spacing half axis upper lower plane sep
    = Raise IndexError.
Proof.
  intros H. unfold Geometry.phantom_axis.
  now rewrite (vec_get_short _ H).
Qed.

Lemma parity_split (k : Z) (odd : bool) :
  ((2 * k + Z.b2z odd) / 2 = k)%Z /\
  ((2 * k + Z.b2z odd) mod 2 =? 0)%Z = negb odd.
Proof.
  assert (Hb : (0 <= Z.b2z odd < 2)%Z) by (destruct odd; simpl; lia).
  split.
  - symmetry. apply (Z.div_unique _ 2 k (Z.b2z odd)); [left; exact Hb|lia].
  - rewrite <- (Z.mod_unique _ 2 k (Z.b2z odd)); [|left; exact Hb|lia].
    now destruct odd.
Qed.

(** The phantom cell of a three-axis volume. *)
Lemma build_phantom_ok (n0 n1 n2 : Z) (s0 s1 s2 : Q)
    (ns : list Z) (ss : list Q) :
  exists x y z,
    Geometry.phantom_axis (n0 :: n1 :: n2 :: ns) (s0 :: s1 :: s2 :: ss)
      (List.map (fun n => (n / 2)%Z) (n0 :: n1 :: n2 :: ns))
      0 "111" "112" "px" " " = Ok x /\
    Geometry.phantom_axis (n0 :: n1 :: n2 :: ns) (s0 :: s1 :: s2 :: ss)
      (List.map (fun n => (n / 2)%Z) (n0 :: n1 :: n2 :: ns))
      1 "113" "114" "py" " " = Ok y /\
    Geometry.phantom_axis (n0 :: n1 :: n2 :: ns) (s0 :: s1 :: s2 :: ss)
      (List.map (fun n => (n / 2)%Z) (n0 :: n1 :: n2 :: ns))
      2 "115" "116" "pz" "" = Ok z /\
    Geometry._build_phantom_cell_surfaces
      (n0 :: n1 :: n2 :: ns) (s0 :: s1 :: s2 :: ss)
    = Ok {| Geometry.ph_surfaces :=
              (Geometry.surfaces x ++ Geometry.surfaces y
                 ++ Geometry.surfaces z)%list;
            Geometry.ph_origin :=
              [Geometry.origin x; Geometry.origin y; Geometry.origin z];
            Geometry.ph_limit :=
              [Geometry.limit x; Geometry.limit y; Geometry.limit z];
            Geometry.ph_fill :=
              ("fill=" ++ Geometry.fill_range x ++ Geometry.fill_range y
                 ++ Geometry.fill_range z)%string;
            Geometry.ph_geom := "-111 112 -113 114 -115 116" |}.
Proof.
  destruct (@phantom_axis_ok (n0 :: n1 :: n2 :: ns) (s0 :: s1 :: s2 :: ss)
              0 "111" "112" "px" " " n0 s0 eq_refl eq_refl) as (x & Hx & _).
  destruct (@phantom_axis_ok (n0 :: n1 :: n2 :: ns) (s0 :: s1 :: s2 :: ss)
              1 "113" "114" "py" " " n1 s1 eq_refl eq_refl) as (y & Hy & _).
  destruct (@phantom_axis_ok (n0 :: n1 :: n2 :: ns) (s0 :: s1 :: s2 :: ss)
              2 "115" "116" "pz" "" n2 s2 eq_refl eq_refl) as (z & Hz & _).
  exists x, y, z. repeat split; auto.
  unfold Geometry._build_phantom_cell_surfaces.
  rewrite Hx, Hy, Hz. reflexivity.
Qed.

(** C1 (the code departs from the specification). For an axis with an even voxel
    count [2k] the range written is [-k+1:k], as specified; for an axis
    with an odd voxel count [2k+1] the range written is [k:k], without
    the minus sign of the specified [-k:k].  Each axis is handled on its
    own.  For three voxels per axis the fill directive is
    [fill=1:1 1:1 1:1], not [fill=-1:1 -1:1 -1:1]. *)
Theorem C1_fill_range_written :
  (forall (k0 k1 k2 : Z) (odd0 odd1 odd2 : bool) (s0 s1 s2 : Q),
     exists ph,
       Geometry._build_phantom_cell_surfaces
         [2 * k0 + Z.b2z odd0; 2 * k1 + Z.b2z odd1; 2 * k2 + Z.b2z odd2]%Z
         [s0; s1; s2] = Ok ph /\
       Geometry.ph_fill ph =
         ("fill="
          ++ ((if odd0 then str_int k0 else str_int (- k0 + 1))
                ++ ":" ++ str_int k0 ++ " ")
          ++ ((if odd1 then str_int k1 else str_int (- k1 + 1))
                ++ ":" ++ str_int k1 ++ " ")
          ++ ((if odd2 then str_int k2 else str_int (- k2 + 1))
                ++ ":" ++ str_int k2 ++ ""))%string) /\
  (exists ph,
     Geometry._build_phantom_cell_surfaces [3; 3; 3]%Z [1; 1; 1]%Q = Ok ph /\
     Geometry.ph_fill ph = "fill=1:1 1:1 1:1"%string).
Proof.
  split.
  - intros.
    set (size := [2 * k0 + Z.b2z odd0; 2 * k1 + Z.b2z odd1;
                  2 * k2 + Z.b2z odd2]%Z).
    destruct (@build_phantom_ok (2 * k0 + Z.b2z odd0) (2 * k1 + Z.b2z odd1)
                (2 * k2 + Z.b2z odd2) s0 s1 s2 [] [])
      as (x & y & z & Hx & Hy & Hz & Hph).
    fold size in Hx, Hy, Hz, Hph.
    destruct (@phantom_axis_ok size [s0; s1; s2] 0 "111" "112" "px" " "
                _ s0 eq_refl eq_refl) as (x' & Hx' & Fx & _).
    destruct (@phantom_axis_ok size [s0; s1; s2] 1 "113" "114" "py" " "
                _ s1 eq_refl eq_refl) as (y' & Hy' & Fy & _).
    destruct (@phantom_axis_ok size [s0; s1; s2] 2 "115" "116" "pz" ""
                _ s2 eq_refl eq_refl) as (z' & Hz' & Fz & _).
    assert (x' = x) by congruence. assert (y' = y) by congruence.
    assert (z' = z) by congruence. subst x' y' z'.
    destruct (parity_split k0 odd0) as [D0 M0].
    destruct (parity_split k1 odd1) as [D1 M1].
    destruct (parity_split k2 odd2) as [D2 M2].
    rewrite D0, M0 in Fx. rewrite D1, M1 in Fy. rewrite D2, M2 in Fz.
    eexists. split; [exact Hph|]. cbn [Geometry.ph_fill].
    rewrite Fx, Fy, Fz. now destruct odd0, odd1, odd2.
  - eexists. split; vm_compute; reflexivity.
Qed.






Lemma build_base_short (spacing : list Q) :
  (List.length spacing < 3)%nat ->
  Geometry._build_base_cell_surfaces spacing = Raise IndexError.
Proof.
  destruct spacing as [|s0 [|s1 [|s2 ss]]]; simpl; intros H;
    try reflexivity; lia.
Qed.

Lemma build_base_ok (s0 s1 s2 : Q) (ss : list Q) :
  exists base,
    Geometry._build_base_cell_surfaces (s0 :: s1 :: s2 :: ss) = Ok base.
Proof. eexists. reflexivity. Qed.

Lemma build_phantom_short (size : list Z) (s0 s1 s2 : Q) (ss : list Q) :
  (List.length size < 3)%nat ->
  Geometry._build_phantom_cell_surfaces size (s0 :: s1 :: s2 :: ss)
    = Raise IndexError.
Proof.
  intros H. unfold Geometry._build_phantom_cell_surfaces.
  destruct size as [|n0 [|n1 [|n2 ns]]]; simpl in H; try lia.
  - rewrite phantom_axis_short by (simpl; lia). reflexivity.
  - destruct (@phantom_axis_ok [n0] (s0 :: s1 :: s2 :: ss) 0
                "111" "112" "px" " " n0 s0 eq_refl eq_refl) as (x & Hx & _).
    rewrite Hx; cbn [Py.bind].
    rewrite phantom_axis_short by (simpl; lia). reflexivity.
  - destruct (@phantom_axis_ok [n0; n1] (s0 :: s1 :: s2 :: ss) 0
                "111" "112" "px" " " n0 s0 eq_refl eq_refl) as (x & Hx & _).
    destruct (@phantom_axis_ok [n0; n1] (s0 :: s1 :: s2 :: ss) 1
                "113" "114" "py" " " n1 s1 eq_refl eq_refl) as (y & Hy & _).
    rewrite Hx; cbn [Py.bind]. rewrite Hy; cbn [Py.bind].
    rewrite phantom_axis_short by (simpl; lia). reflexivity.
Qed.

Lemma build_world_same_length (size : list Z) (spacing : list Q) :
  List.length size = List.length spacing -> size <> [] ->
  exists world, Geometry._build_world_surface size spacing = Ok world.
Proof.
  intros Hlen Hne.
  unfold Geometry._build_world_surface, Geometry.world_radius, Np.vec_mul.
  rewrite (proj2 (Nat.eqb_eq _ _) Hlen). cbn [Py.bind].
  destruct size as [|n ns]; [congruence|].
  destruct spacing as [|s ss]; [discriminate|].
  cbn [combine List.map Np.vec_max Py.bind]. eexists. reflexivity.
Qed.

Lemma build_world_mismatch (size : list Z) (spacing : list Q) :
  (3 <= List.length size)%nat -> (3 <= List.length spacing)%nat ->
  List.length size <> List.length spacing ->
  Geometry._build_world_surface size spacing = Raise ValueError.
Proof.
  intros H1 H2 Hne.
  unfold Geometry._build_world_surface, Geometry.world_radius, Np.vec_mul.
  rewrite (proj2 (Nat.eqb_neq _ _) Hne).
  destruct size as [|n0 [|n1 ns]]; simpl in H1; try lia.
  destruct spacing as [|s0 [|s1 ss]]; simpl in H2; try lia.
  reflexivity.
Qed.

(** C8 (as amended). The builder fails, with an [IndexError], whenever
    the size vector or the spacing vector has fewer than three
    components.  Vectors of equal length three or more are accepted,
    whatever the sign of the spacing components; longer vectors of
    different lengths fail with a [ValueError] when multiplied. *)
Theorem C8_vector_lengths (voxel : CTVoxel.t) (mode : list string) :
  ((List.length (CTVoxel.size voxel) < 3)%nat \/
   (List.length (CTVoxel.spacing voxel) < 3)%nat ->
   Geometry.__init__ voxel mode = Raise IndexError) /\
  ((3 <= List.length (CTVoxel.size voxel))%nat ->
   List.length (CTVoxel.size voxel) = List.length (CTVoxel.spacing voxel) ->
   exists g, Geometry.__init__ voxel mode = Ok g /\
             Geometry.size g = CTVoxel.size voxel /\
             Geometry.spacing g = CTVoxel.spacing voxel) /\
  ((3 <= List.length (CTVoxel.size voxel))%nat ->
   (3 <= List.length (CTVoxel.spacing voxel))%nat ->
   List.length (CTVoxel.size voxel) <> List.length (CTVoxel.spacing voxel) ->
   Geometry.__init__ voxel mode = Raise ValueError).
Proof.
  unfold Geometry.__init__.
  set (size := CTVoxel.size voxel). set (spacing := CTVoxel.spacing voxel).
  split; [|split].
  - intros H.
    destruct (Nat.lt_ge_cases (List.length spacing) 3) as [Hs|Hs].
    + now rewrite build_base_short.
    + destruct H as [H|H]; [|lia].
      destruct spacing as [|s0 [|s1 [|s2 ss]]]; simpl in Hs; try lia.
      destruct (build_base_ok s0 s1 s2 ss) as [base ->]; cbn [Py.bind].
      now rewrite build_phantom_short.
  - intros H3 Hlen.
    destruct size as [|n0 [|n1 [|n2 ns]]] eqn:Esize; simpl in H3; try lia.
    destruct spacing as [|s0 [|s1 [|s2 ss]]] eqn:Espacing;
      simpl in Hlen; try lia.
    destruct (build_base_ok s0 s1 s2 ss) as [base ->]; cbn [Py.bind].
    destruct (@build_phantom_ok n0 n1 n2 s0 s1 s2 ns ss)
      as (x & y & z & _ & _ & _ & ->); cbn [Py.bind].
    destruct (@build_world_same_length (n0 :: n1 :: n2 :: ns)
                (s0 :: s1 :: s2 :: ss) Hlen ltac:(discriminate))
      as [world ->]; cbn [Py.bind].
    eexists. split; [reflexivity|]. split; reflexivity.
  - intros H3 H3' Hne.
    destruct size as [|n0 [|n1 [|n2 ns]]] eqn:Esize; simpl in H3; try lia.
    destruct spacing as [|s0 [|s1 [|s2 ss]]] eqn:Espacing;
      simpl in H3'; try lia.
    destruct (build_base_ok s0 s1 s2 ss) as [base ->]; cbn [Py.bind].
    destruct (@build_phantom_ok n0 n1 n2 s0 s1 s2 ns ss)
      as (x & y & z & _ & _ & _ & ->); cbn [Py.bind].
    rewrite build_world_mismatch; [reflexivity|simpl; lia|simpl; lia|exact Hne].
Qed.

(* ===================================================================== *)
(** * The fill list and its reader *)
(* ===================================================================== *)

Lemma append_assoc (a b c : string) :
  ((a ++ b) ++ c = a ++ (b ++ c))%string.
Proof. induction a as [|x a IH]; simpl; [reflexivity|now rewrite IH]. Qed.

Lemma append_nil_r (a : string) : (a ++ "" = a)%string.
Proof. induction a as [|x a IH]; simpl; [reflexivity|now rewrite IH]. Qed.

Lemma bind_write {B} (text : string) (k : unit -> IO.t B) (file : string) :
  IO.bind (IO.write text) k file = k tt (file ++ text)%string.
Proof. reflexivity. Qed.

Lemma bind_ret {A B} (a : A) (k : A -> IO.t B) (file : string) :
  IO.bind (IO.ret a) k file = k a file.
Proof. reflexivity. Qed.

(** The text that the fill-list loop appends to the file. *)
Lemma write_fill_list_appends (values : list Z) (accumulator total : Z)
    (file : string) :
  Geometry.write_fill_list values accumulator total file
  = ((file ++ fst (Geometry.write_fill_list values accumulator total ""%string))%string,
     Ok tt).
Proof.
  revert accumulator file.
  induction values as [|v rest IH]; intros accumulator file.
  - simpl. now rewrite append_nil_r.
  - cbn [Geometry.write_fill_list].
    rewrite !bind_write, IH.
    rewrite (IH _ (("" ++ " " ++ str_int v) ++ Geometry.wrap accumulator total)%string).
    cbn [fst]. f_equal.
    now rewrite !append_assoc.
Qed.

Lemma fill_text_cons (v : Z) (rest : list Z) (accumulator total : Z) :
  fst (Geometry.write_fill_list (v :: rest) accumulator total ""%string)
  = (" " ++ str_int v ++ Geometry.wrap accumulator total
       ++ fst (Geometry.write_fill_list rest (accumulator + 1) total ""%string))%string.
Proof.
  cbn [Geometry.write_fill_list].
  rewrite !bind_write, write_fill_list_appends. cbn [fst].
  now rewrite !append_assoc.
Qed.

(** A field without white space is read in one go. *)
Lemma tokens_field (field rest cur : string) :
  Reader.all_chars not_space field = true ->
  Reader.tokens (field ++ rest) cur = Reader.tokens rest (cur ++ field).
Proof.
  revert cur; induction field as [|c field IH]; intros cur H; simpl in *.
  - now rewrite append_nil_r.
  - apply andb_prop in H. destruct H as [Hc Hf].
    unfold not_space in Hc. apply negb_true_iff in Hc. rewrite Hc.
    rewrite IH by exact Hf. now rewrite append_assoc.
Qed.


(** A field that is followed by the end of the text or by white space is
    complete. *)
Lemma tokens_end_field (rest cur : string) :
  cur <> EmptyString -> starts_blank rest ->
  Reader.tokens rest cur = cur :: Reader.tokens rest "".
Proof.
  intros Hne Hb. destruct rest as [|c rest]; simpl in *.
  - destruct cur; [congruence|reflexivity].
  - rewrite Hb. destruct cur; [congruence|reflexivity].
Qed.

Lemma uint_digits (d : Decimal.uint) :
  Reader.all_chars not_space (NilEmpty.string_of_uint d) = true.
Proof. induction d; simpl; auto. Qed.

Lemma str_int_no_space (z : Z) :
  Reader.all_chars not_space (str_int z) = true.
Proof.
  unfold str_int, NilZero.string_of_int, NilZero.string_of_uint.
  destruct (Z.to_int z) as [d|d]; destruct d; simpl;
    auto using uint_digits.
Qed.

Lemma str_int_nonempty (z : Z) : str_int z <> EmptyString.
Proof.
  unfold str_int, NilZero.string_of_int, NilZero.string_of_uint.
  destruct (Z.to_int z) as [d|d]; destruct d; simpl; discriminate.
Qed.








Lemma appends_write (text : string) : appends (IO.write text) text.
Proof. intros file. reflexivity. Qed.

Lemma appends_seq (c k : IO.t unit) (t1 t2 : string) :
  appends c t1 -> appends k t2 ->
  appends (IO.bind c (fun _ => k)) (t1 ++ t2).
Proof.
  intros Hc Hk file. unfold IO.bind. rewrite Hc, Hk.
  now rewrite append_assoc.
Qed.

Lemma appends_for_each {A} (l : list A) (body : A -> IO.t unit)
    (text : A -> string) :
  (forall x, In x l -> appends (body x) (text x)) ->
  appends (IO.for_each l body)
          (fold_right (fun x rest => (text x ++ rest)%string) ""%string l).
Proof.
  induction l as [|x l IH]; intros H; simpl.
  - intros file. unfold IO.ret. now rewrite append_nil_r.
  - apply appends_seq; [apply H; now left|].
    apply IH. intros y Hy. apply H. now right.
Qed.

(** The geometry section: the cell cards of the materials, the lattice
    card, the fill list exactly as the loop writes it, and the remaining
    cards and surfaces. *)
Lemma Geometry_to_file_layout (g : Geometry.t) :
  keys_have_density (Geometry.keys g) (Geometry.density_table g) ->
  exists cells surfaces,
    appends (Geometry.to_file g)
      (cells
       ++ ("998  0  " ++ Geometry.base_cell_geom g ++ " u=999 imp:"
             ++ Geometry.mode g ++ "=1" ++ Text.nl)
       ++ ("     lat=1  " ++ Geometry.fill g ++ Text.nl ++ "    ")
       ++ fst (Geometry.write_fill_list (Np.nditer (Geometry.index_map g)) 1
                 (Np.prod (Geometry.size g)) ""%string)
       ++ ("999  0  " ++ Geometry.phantom_cell_geom g ++ "  fill=999 imp:"
             ++ Geometry.mode g ++ "=1" ++ Text.nl)
       ++ ("1000  1  -0.00129  -1000 #999 imp:" ++ Geometry.mode g ++ "=1"
             ++ Text.nl)
       ++ ("9999  0  1000  imp:" ++ Geometry.mode g ++ "=0" ++ Text.nl)
       ++ Text.nl
       ++ surfaces)%string.
Proof.
  intros Hinv. do 2 eexists. unfold Geometry.to_file.
  repeat (apply appends_seq);
    try apply appends_write;
    try (intros file; apply write_fill_list_appends);
    try (apply appends_for_each; intros; apply appends_write).
  apply (@appends_for_each _ _ _
           (fun i =>
              match dict_get Z.eqb (Geometry.density_table g) i with
              | Some d =>
                  ((str_int i ++ "  " ++ str_int i ++ "  " ++ str d)
                   ++ ("  " ++ Geometry.base_cell_geom g ++ "  u="
                         ++ str_int i ++ "  imp:" ++ Geometry.mode g
                         ++ "=1" ++ Text.nl)
                   ++ ("88" ++ str_int i ++ "  0  #" ++ str_int i ++ "  u="
                         ++ str_int i ++ "  imp:" ++ Geometry.mode g
                         ++ "=1" ++ Text.nl))%string
              | None => EmptyString
              end)).
  intros i Hi. unfold Geometry.write_material_cells.
  destruct (dict_get Z.eqb (Geometry.density_table g) i) as [d|] eqn:E.
  - intros file. unfold IO.bind at 1. unfold IO.lift.
    apply (appends_seq (appends_write _)
             (appends_seq (appends_write _) (appends_write _))).
  - exfalso. exact (Hinv i Hi E).
Qed.


(* ===================================================================== *)
(** * The section writers *)
(* ===================================================================== *)

(** C5 (the code departs from the specification). With the [source] key absent,
    the source writer is left without its [si_sp_str] attribute: it
    writes the [SDEF] line and then raises [AttributeError], on any
    file.  For a cube of two voxels per axis and a configuration with
    [material] and [mode] only, [run] therefore does not succeed; the
    deck it leaves behind has an [SDEF] line and no [fmesh] block, and
    ends right after [SDEF]. *)
Theorem C5_absent_source_raises :
  (forall file : string,
     exists s,
       Source.__init__ None = Ok s /\
       Source.to_file s file
         = ((file ++ "SDEF" ++ Text.nl)%string,
            Raise (AttributeError "si_sp_str"))) /\
  MCNPGenerator.run (Examples.cube 2 20)
                    (Examples.minimal Examples.two_materials)
  = {| MCNPGenerator.config_after :=
         MCNPGenerator.default_cards (Examples.minimal Examples.two_materials);
       MCNPGenerator.deck := Some Examples.deck_without_source;
       MCNPGenerator.returned := Raise (AttributeError "si_sp_str") |} /\
  Reader.contains "SDEF" Examples.deck_without_source = true /\
  Reader.contains "fmesh" Examples.deck_without_source = false.
Proof.
  split; [|split; [|split]].
  - intros file. eexists. split; reflexivity.
  - vm_compute. reflexivity.
  - vm_compute. reflexivity.
  - vm_compute. reflexivity.
Qed.


(** What a successful [Geometry.__init__] has stored for the tally. *)
Lemma Geometry_init_inv (voxel : CTVoxel.t) (mode : list string)
    (g : Geometry.t) :
  Geometry.__init__ voxel mode = Ok g ->
  exists n0 n1 n2 ns o0 o1 o2 l0 l1 l2,
    Geometry.size g = n0 :: n1 :: n2 :: ns /\
    Geometry.phantom_origin g = [o0; o1; o2] /\
    Geometry.phantom_limit g = [l0; l1; l2] /\
    Geometry.keys g = CTVoxel.keys voxel /\
    Geometry.density_table g = CTVoxel.density_table voxel.
Proof.
  unfold Geometry.__init__.
  set (size := CTVoxel.size voxel). set (spacing := CTVoxel.spacing voxel).
  destruct (Nat.lt_ge_cases (List.length spacing) 3) as [Hs|Hs].
  { rewrite build_base_short by exact Hs. discriminate. }
  destruct spacing as [|s0 [|s1 [|s2 ss]]]; simpl in Hs; try lia.
  destruct (build_base_ok s0 s1 s2 ss) as [base ->]; cbn [Py.bind].
  destruct (Nat.lt_ge_cases (List.length size) 3) as [Hn|Hn].
  { rewrite build_phantom_short by exact Hn. discriminate. }
  destruct size as [|n0 [|n1 [|n2 ns]]]; simpl in Hn; try lia.
  destruct (@build_phantom_ok n0 n1 n2 s0 s1 s2 ns ss)
    as (x & y & z & _ & _ & _ & ->); cbn [Py.bind].
  destruct (Geometry._build_world_surface _ _) as [world|e];
    cbn [Py.bind]; [|discriminate].
  intros [= <-]. cbn.
  do 10 eexists. repeat split; reflexivity.
Qed.





(* ===================================================================== *)
(** * The deck assembler *)
(* ===================================================================== *)

Lemma dict_set_keeps (V : Type) (d : list (Z * V)) (k k' : Z) (v : V) :
  dict_get Z.eqb d k' <> None ->
  dict_get Z.eqb (dict_set Z.eqb d k v) k' <> None.
Proof.
  induction d as [|[k0 v0] d IH]; simpl; [congruence|].
  destruct (Z.eqb_spec k0 k) as [->|Hne]; simpl.
  - destruct (Z.eqb k k'); [discriminate|auto].
  - destruct (Z.eqb k0 k'); [discriminate|auto].
Qed.

Lemma dict_set_binds (V : Type) (d : list (Z * V)) (k : Z) (v : V) :
  dict_get Z.eqb (dict_set Z.eqb d k v) k <> None.
Proof.
  induction d as [|[k0 v0] d IH]; simpl.
  - rewrite Z.eqb_refl. discriminate.
  - destruct (Z.eqb_spec k0 k) as [->|Hne]; simpl.
    + rewrite Z.eqb_refl. discriminate.
    + destruct (Z.eqb_spec k0 k); [congruence|exact IH].
Qed.

Lemma parse_entry_keys (st st' : CTVoxel.parse_state)
    (entry : string * Config.material_entry) :
  CTVoxel.parse_entry st entry = Ok st' ->
  keys_have_density (snd st) (snd (fst st)) ->
  keys_have_density (snd st') (snd (fst st')).
Proof.
  destruct st as [[[raw et] dt] ks], entry as [i m].
  unfold CTVoxel.parse_entry.
  destruct (Config.get (Config.hu_interval m) "hu_interval") as [hu|];
    cbn [Py.bind]; [|discriminate].
  destruct (int_of_str i) as [k|]; cbn [Py.bind]; [|discriminate].
  destruct (Config.get (Config.nucleon m) "nucleon") as [nuc|];
    cbn [Py.bind]; [|discriminate].
  destruct (Config.get (Config.fraction m) "fraction") as [fr|];
    cbn [Py.bind]; [|discriminate].
  destruct (Config.get (Config.density m) "density") as [d|];
    cbn [Py.bind]; [|discriminate].
  intros [= <-] Hinv. cbn [fst snd] in *.
  intros k' Hin. apply in_app_or in Hin. destruct Hin as [Hin|[<-|[]]].
  - apply dict_set_keeps, Hinv, Hin.
  - apply dict_set_binds.
Qed.

Lemma parse_entries_keys (mc : Config.material_config)
    (st st' : CTVoxel.parse_state) :
  CTVoxel.parse_entries st mc = Ok st' ->
  keys_have_density (snd st) (snd (fst st)) ->
  keys_have_density (snd st') (snd (fst st')).
Proof.
  revert st; induction mc as [|e mc IH]; intros st; simpl.
  - now intros [= <-].
  - destruct (CTVoxel.parse_entry st e) as [st1|] eqn:E; cbn [Py.bind];
      [|discriminate].
    intros H Hinv. apply (IH st1 H). exact (parse_entry_keys _ _ E Hinv).
Qed.

Lemma CTVoxel_keys_have_density (ct : Sitk.Image)
    (mc : Config.material_config) (v : CTVoxel.t) :
  CTVoxel.__init__ ct mc = Ok v ->
  keys_have_density (CTVoxel.keys v) (CTVoxel.density_table v).
Proof.
  intros Hinit.
  destruct (CTVoxel_init_inv _ _ Hinit) as (raw & lo & hi & Hp & _).
  apply (parse_entries_keys _ _ Hp). intros k [].
Qed.

Lemma succeeds_write (text : string) : succeeds (IO.write text).
Proof. intros file. eexists. reflexivity. Qed.

Lemma succeeds_ret : succeeds (IO.ret tt).
Proof. intros file. eexists. reflexivity. Qed.

Lemma succeeds_seq (c k : IO.t unit) :
  succeeds c -> succeeds k -> succeeds (IO.bind c (fun _ => k)).
Proof.
  intros Hc Hk file. destruct (Hc file) as [f1 E1].
  destruct (Hk f1) as [f2 E2]. exists f2. unfold IO.bind. now rewrite E1.
Qed.

Lemma succeeds_for_each {A} (l : list A) (body : A -> IO.t unit) :
  (forall x, In x l -> succeeds (body x)) -> succeeds (IO.for_each l body).
Proof.
  induction l as [|x l IH]; intros H; simpl.
  - apply succeeds_ret.
  - apply succeeds_seq; [apply H; now left|].
    apply IH. intros y Hy. apply H. now right.
Qed.

Lemma succeeds_fill_list (values : list Z) (accumulator total : Z) :
  succeeds (Geometry.write_fill_list values accumulator total).
Proof.
  intros file. eexists. apply write_fill_list_appends.
Qed.

(** The geometry writer returns normally as soon as its keys have a
    density. *)
Lemma Geometry_to_file_succeeds (g : Geometry.t) :
  keys_have_density (Geometry.keys g) (Geometry.density_table g) ->
  succeeds (Geometry.to_file g).
Proof.
  intros Hinv. unfold Geometry.to_file.
  repeat (apply succeeds_seq);
    try apply succeeds_write; try apply succeeds_fill_list;
    try (apply succeeds_for_each; intros; apply succeeds_write).
  apply succeeds_for_each. intros i Hi.
  unfold Geometry.write_material_cells.
  destruct (dict_get Z.eqb (Geometry.density_table g) i) as [d|] eqn:E.
  - intros file. unfold IO.bind at 1. unfold IO.lift.
    apply (succeeds_seq (succeeds_write _)
             (succeeds_seq (succeeds_write _) (succeeds_write _))).
  - exfalso. exact (Hinv i Hi E).
Qed.

(** What a successful [build_modules] has called. *)
Lemma build_modules_inv (ct : Sitk.Image) (config : Config.t)
    (m : MCNPGenerator.modules) :
  MCNPGenerator.build_modules ct config = Ok m ->
  exists mc md,
    Config.material config = Some mc /\
    Config.mode config = Some md /\
    CTVoxel.__init__ ct mc = Ok (MCNPGenerator.voxel m) /\
    Geometry.__init__ (MCNPGenerator.voxel m) md = Ok (MCNPGenerator.geom m).
Proof.
  unfold MCNPGenerator.build_modules.
  destruct (Config.material config) as [mc|]; cbn [Config.get Py.bind];
    [|discriminate].
  destruct (CTVoxel.__init__ ct mc) as [v|] eqn:Ev; cbn [Py.bind];
    [|discriminate].
  destruct (Config.mode config) as [md|]; cbn [Config.get Py.bind];
    [|discriminate].
  destruct (Geometry.__init__ v md) as [g|] eqn:Eg; cbn [Py.bind];
    [|discriminate].
  destruct (Config.get (Config.source config) "source") as [sc|];
    cbn [Py.bind]; [|discriminate].
  destruct (Source.__init__ sc) as [src|]; cbn [Py.bind]; [|discriminate].
  destruct (Config.get (Config.tally config) "tally") as [tc|];
    cbn [Py.bind]; [|discriminate].
  destruct (Config.get (Config.outcontrol config) "outcontrol") as [oc|];
    cbn [Py.bind]; [|discriminate].
  intros [= <-]. cbn. exists mc, md. auto.
Qed.

(** The first missing [density] stops the parsing of the material
    table. *)
Lemma parse_entries_missing_density (mc : Config.material_config)
    (st : CTVoxel.parse_state) :
  Forall complete_but_density mc -> Exists lacks_density mc ->
  CTVoxel.parse_entries st mc = Raise (KeyError "density").
Proof.
  revert st; induction mc as [|[i m] mc IH]; intros st Hall Hex.
  - inversion Hex.
  - inversion Hall as [|? ? Hhead Htail]; subst.
    destruct Hhead as ([k Hk] & Hhu & Hnuc & Hfr); cbn [fst snd] in *.
    destruct st as [[[raw et] dt] ks].
    cbn [CTVoxel.parse_entries]. unfold CTVoxel.parse_entry.
    destruct (Config.hu_interval m) as [hu|]; [|congruence].
    destruct (Config.nucleon m) as [nuc|]; [|congruence].
    destruct (Config.fraction m) as [fr|]; [|congruence].
    rewrite Hk. cbn [Config.get Py.bind].
    destruct (Config.density m) as [d|] eqn:Ed; cbn [Config.get Py.bind].
    + apply IH; [exact Htail|].
      inversion Hex as [? ? Hl|? ? Hl]; subst; [|exact Hl].
      unfold lacks_density in Hl; cbn in Hl. congruence.
    + reflexivity.
Qed.

(** C6 (as amended). A material entry without a [density] makes the
    generation fail with a [KeyError] while the material table is parsed,
    before the deck file is opened (the other fields of the entries
    being there).  The keys for which the geometry writes cell cards
    always have a density, so the geometry writer never raises.  The
    material indices of the fill list are not checked against the
    density table. *)
Theorem C6_missing_density (ct : Sitk.Image) (config : Config.t)
    (mc : Config.material_config) :
  Config.material config = Some mc ->
  MCNPGenerator.has_key (Config.mode config) = true ->
  (Forall complete_but_density mc -> Exists lacks_density mc ->
   MCNPGenerator.run ct config
   = {| MCNPGenerator.config_after := MCNPGenerator.default_cards config;
        MCNPGenerator.deck := None;
        MCNPGenerator.returned := Raise (KeyError "density") |}) /\
  (forall m,
     snd (MCNPGenerator.init_MC_module ct config) = Ok m ->
     keys_have_density (Geometry.keys (MCNPGenerator.geom m))
                       (Geometry.density_table (MCNPGenerator.geom m)) /\
     succeeds (Geometry.to_file (MCNPGenerator.geom m))).
Proof.
  intros Hmat Hmode. split.
  - intros Hall Hex.
    unfold MCNPGenerator.run, MCNPGenerator.init_MC_module.
    rewrite Hmat, Hmode. cbn [MCNPGenerator.has_key andb].
    unfold MCNPGenerator.build_modules.
    cbn [MCNPGenerator.default_cards Config.material Config.get Py.bind].
    rewrite Hmat. cbn [Config.get Py.bind].
    unfold CTVoxel.__init__, CTVoxel._parse_material.
    rewrite (parse_entries_missing_density _ Hall Hex).
    reflexivity.
  - intros m Hm.
    unfold MCNPGenerator.init_MC_module in Hm.
    rewrite Hmat, Hmode in Hm. cbn [MCNPGenerator.has_key andb snd] in Hm.
    destruct (build_modules_inv _ _ Hm) as (mc' & md & _ & _ & Hv & Hg).
    destruct (Geometry_init_inv _ _ Hg)
      as (n0 & n1 & n2 & ns & o0 & o1 & o2 & l0 & l1 & l2
          & _ & _ & _ & Hk & Hd).
    assert (Hinv : keys_have_density (Geometry.keys (MCNPGenerator.geom m))
                     (Geometry.density_table (MCNPGenerator.geom m))).
    { rewrite Hk, Hd. exact (CTVoxel_keys_have_density _ _ Hv). }
    split; [exact Hinv|]. now apply Geometry_to_file_succeeds.
Qed.











(* ===================================================================== *)
(** * Instances and counterexamples *)
(* ===================================================================== *)

(** C2 at the row of two voxels with the boundaries -1000, 0, 3000. *)
Lemma C2_witness :
  exists v,
    CTVoxel.__init__ Examples.row Examples.two_materials = Ok v /\
    exists lo hi,
      py_min (CTVoxel.hu_interval v) = Ok lo /\
      py_max (CTVoxel.hu_interval v) = Ok hi /\
      forall (i : nat) (sample : Z),
        nth_error (Np.data (Sitk.GetArrayFromImage Examples.row)) i
          = Some sample ->
        exists clipped index,
          nth_error (Np.data (CTVoxel.array v)) i = Some clipped /\
          nth_error (Np.data (CTVoxel.index_map v)) i = Some index /\
          (1 <= index <= Z.of_nat (List.length (CTVoxel.hu_interval v)))%Z /\
          ((sample < lo)%Z -> clipped = lo /\ index = 1%Z) /\
          ((hi < sample)%Z ->
             clipped = hi /\
             index = CTVoxel.material_index (CTVoxel.hu_interval v) hi /\
             (StronglySorted Z.lt (CTVoxel.hu_interval v) ->
              index =
                Z.max 1
                  (Z.of_nat (List.length (CTVoxel.hu_interval v)) - 1))).
Proof.
  eexists. split.
  - vm_compute. reflexivity.
  - apply (@C2_clip_and_classify Examples.row Examples.two_materials).
    + vm_compute. reflexivity.
    + vm_compute. reflexivity.
Defined.

(** C2, the statement of the specification fails: with the boundaries -1000, 0, 3000,
    the sample 5000 is above the largest boundary, is clipped to 3000
    and gets the material index 2, not 3 = len(boundaries). *)
Lemma C2_counterexample :
  exists v,
    CTVoxel.__init__ Examples.row Examples.two_materials = Ok v /\
    CTVoxel.hu_interval v = [-1000; 0; 3000]%Z /\
    py_max (CTVoxel.hu_interval v) = Ok 3000%Z /\
    nth_error (Np.data (Sitk.GetArrayFromImage Examples.row)) 1
      = Some 5000%Z /\
    nth_error (Np.data (CTVoxel.array v)) 1 = Some 3000%Z /\
    nth_error (Np.data (CTVoxel.index_map v)) 1 = Some 2%Z /\
    2%Z <> Z.of_nat (List.length (CTVoxel.hu_interval v)).
Proof.
  eexists. split; [vm_compute; reflexivity|].
  repeat split; try reflexivity. vm_compute. discriminate.
Qed.

(** C9 at the row of two voxels. *)
Lemma C9_witness :
  exists v,
    CTVoxel.__init__ Examples.row Examples.two_materials = Ok v /\
    Np.shape (CTVoxel.index_map v) = Np.shape (CTVoxel.array v) /\
    List.map Z.of_nat (Np.shape (CTVoxel.array v)) = rev (CTVoxel.size v) /\
    CTVoxel.size v = Sitk.GetSize Examples.row /\
    Np.wf (CTVoxel.array v) /\ Np.wf (CTVoxel.index_map v) /\
    Z.of_nat (List.length (Np.data (CTVoxel.index_map v)))
      = Np.prod (CTVoxel.size v).
Proof.
  eexists. split.
  - vm_compute. reflexivity.
  - apply (@C9_shapes Examples.row Examples.two_materials).
    vm_compute. reflexivity.
Defined.

(** C9, the statement of the specification fails: for a row of two voxels along x the
    size vector is (2, 1, 1) while both volumes have the shape
    (1, 1, 2). *)
Lemma C9_counterexample :
  exists v,
    CTVoxel.__init__ Examples.row Examples.two_materials = Ok v /\
    CTVoxel.size v = [2; 1; 1]%Z /\
    Np.shape (CTVoxel.index_map v) = [1; 1; 2]%nat /\
    Np.shape (CTVoxel.array v) = [1; 1; 2]%nat /\
    List.map Z.of_nat (Np.shape (CTVoxel.index_map v)) <> CTVoxel.size v.
Proof.
  eexists. split; [vm_compute; reflexivity|].
  repeat split; try reflexivity. vm_compute. discriminate.
Qed.

(** C8 at a two-component, a three-component and a mismatched pair of
    vectors. *)
Lemma C8_witness :
  Geometry.__init__ (Examples.voxel_of [2; 2]%Z [1; 1]%Q) ["n"%string]
    = Raise IndexError /\
  (exists g,
     Geometry.__init__ (Examples.voxel_of [2; 2; 2]%Z [1; 1; 1]%Q)
                       ["n"%string] = Ok g /\
     Geometry.size g
       = CTVoxel.size (Examples.voxel_of [2; 2; 2]%Z [1; 1; 1]%Q) /\
     Geometry.spacing g
       = CTVoxel.spacing (Examples.voxel_of [2; 2; 2]%Z [1; 1; 1]%Q)) /\
  Geometry.__init__ (Examples.voxel_of [2; 2; 2]%Z [1; 1; 1; 1]%Q)
                    ["n"%string] = Raise ValueError.
Proof.
  split; [|split].
  - apply (proj1 (C8_vector_lengths
                    (Examples.voxel_of [2; 2]%Z [1; 1]%Q) ["n"%string])).
    left. simpl. lia.
  - apply (proj1 (proj2 (C8_vector_lengths
                    (Examples.voxel_of [2; 2; 2]%Z [1; 1; 1]%Q)
                    ["n"%string]))).
    + simpl. lia.
    + reflexivity.
  - apply (proj2 (proj2 (C8_vector_lengths
                    (Examples.voxel_of [2; 2; 2]%Z [1; 1; 1; 1]%Q)
                    ["n"%string]))).
    + simpl. lia.
    + simpl. lia.
    + simpl. lia.
Defined.

(** C8, the statement of the specification fails.  Voxels 0.005 mm apart give the
    spacing (0, 0, 0) after scaling and rounding, and the geometry is
    built; so it is for four-component vectors with a negative
    spacing. *)
Lemma C8_counterexample :
  (exists v g,
     CTVoxel.__init__ (Examples.cube 2 (5 # 1000)) Examples.two_materials
       = Ok v /\
     CTVoxel.spacing v = [0; 0; 0]%Q /\
     Geometry.__init__ v ["n"; "p"]%string = Ok g) /\
  (exists g,
     Geometry.__init__
       (Examples.voxel_of [2; 2; 2; 2]%Z [1; 1; 1; -1]%Q) ["n"; "p"]%string
     = Ok g).
Proof.
  split.
  - do 2 eexists. split; [vm_compute; reflexivity|].
    split; [reflexivity|]. vm_compute. reflexivity.
  - eexists. vm_compute. reflexivity.
Qed.

(** C6 at a material table whose second entry has no density, and at a
    complete one. *)
Lemma C6_witness :
  MCNPGenerator.run (Examples.cube 2 20) (Examples.minimal Examples.no_density)
  = {| MCNPGenerator.config_after :=
         MCNPGenerator.default_cards (Examples.minimal Examples.no_density);
       MCNPGenerator.deck := None;
       MCNPGenerator.returned := Raise (KeyError "density") |} /\
  (exists m,
     snd (MCNPGenerator.init_MC_module (Examples.cube 2 20)
            (Examples.minimal Examples.two_materials)) = Ok m /\
     keys_have_density (Geometry.keys (MCNPGenerator.geom m))
                       (Geometry.density_table (MCNPGenerator.geom m)) /\
     succeeds (Geometry.to_file (MCNPGenerator.geom m))).
Proof.
  split.
  - apply (proj1 (@C6_missing_density (Examples.cube 2 20)
                    (Examples.minimal Examples.no_density)
                    Examples.no_density eq_refl eq_refl)).
    + repeat constructor; try discriminate;
        eexists; vm_compute; reflexivity.
    + right. left. reflexivity.
  - eexists. split.
    + vm_compute. reflexivity.
    + apply (proj2 (@C6_missing_density (Examples.cube 2 20)
                      (Examples.minimal Examples.two_materials)
                      Examples.two_materials eq_refl eq_refl)).
      vm_compute. reflexivity.
Defined.

(** C6, the statement of the specification fails.  With one material carrying the
    boundaries -1000, 0, 3000, the voxels at 500 HU get the material
    index 2, which the fill list of the lattice cell refers to and which
    has no entry in the density table; generation nevertheless returns
    normally and the deck is written. *)
Lemma C6_counterexample :
  exists v text,
    CTVoxel.__init__ (Examples.cube 2 20) Examples.one_material = Ok v /\
    In 2%Z (Np.data (CTVoxel.index_map v)) /\
    dict_get Z.eqb (CTVoxel.density_table v) 2%Z = None /\
    MCNPGenerator.run (Examples.cube 2 20)
                      (Examples.with_empty_source Examples.one_material)
    = {| MCNPGenerator.config_after :=
           MCNPGenerator.default_cards
             (Examples.with_empty_source Examples.one_material);
         MCNPGenerator.deck := Some text;
         MCNPGenerator.returned := Ok tt |} /\
    Reader.contains " 1 2 1 2 1 2 1 2" text = true.
Proof.
  do 2 eexists. split; [vm_compute; reflexivity|].
  split; [vm_compute; auto|].
  split; [reflexivity|].
  split; [vm_compute; reflexivity|].
  vm_compute. reflexivity.
Qed.



(* ===================================================================== *)
(** * Further properties: the threshold table and the classification *)
(* ===================================================================== *)

Lemma StronglySorted_nth_le (l : list Z) :
  StronglySorted Z.le l ->
  forall i j, (i <= j < List.length l)%nat -> (nth i l 0 <= nth j l 0)%Z.
Proof.
  induction 1 as [|y l Hs IH Hall]; intros i j Hij; simpl in *; [lia|].
  destruct j as [|j]; [destruct i; lia|].
  destruct i as [|i].
  - rewrite Forall_forall in Hall. apply Hall, nth_In. lia.
  - apply IH. lia.
Qed.

(** The insertion point in a sorted list separates the elements below
    [x] from the others. *)
Lemma bisect_left_sorted (a : list Z) (x : Z) :
  StronglySorted Z.le a ->
  (forall i, (i < bisect_left a x)%nat -> (nth i a 0 < x)%Z) /\
  (forall i, (bisect_left a x <= i < List.length a)%nat ->
             (x <= nth i a 0)%Z).
Proof.
  intros Hs. unfold bisect_left. apply bisect_loop_sorted.
  - apply StronglySorted_nth_le, Hs.
  - lia.
  - intros i Hi; lia.
  - intros i Hi; lia.
Qed.

(** X1. With non-decreasing boundaries, a sample above the first
    boundary and not above the last gets the index [r] of the interval
    that holds it: boundary [r-1] < sample <= boundary [r]. *)
Theorem X1_material_interval (hu : list Z) (x : Z) :
  StronglySorted Z.le hu ->
  (nth 0 hu 0 < x)%Z ->
  (x <= nth (List.length hu - 1) hu 0)%Z ->
  exists r : nat,
    CTVoxel.material_index hu x = Z.of_nat r /\
    (1 <= r < List.length hu)%nat /\
    (nth (r - 1) hu 0 < x <= nth r hu 0)%Z.
Proof.
  intros Hs Hfirst Hlast.
  destruct (bisect_left_sorted x Hs) as [Hl Hr].
  pose proof (bisect_left_le_length hu x) as Hb.
  set (r := bisect_left hu x) in *.
  assert (Hlen : (0 < List.length hu)%nat).
  { destruct hu; simpl in *; lia. }
  assert (H1 : (1 <= r)%nat).
  { destruct r; [|lia]. specialize (Hr 0%nat ltac:(lia)). lia. }
  assert (H2 : (r < List.length hu)%nat).
  { destruct (Nat.lt_ge_cases r (List.length hu)); [assumption|].
    specialize (Hl (List.length hu - 1)%nat ltac:(lia)). lia. }
  exists r. split; [|split; [lia|split]].
  - unfold CTVoxel.material_index. fold r.
    destruct (Z.eqb_spec (Z.of_nat r) 0); lia.
  - apply Hl. lia.
  - apply Hr. lia.
Qed.

Lemma X1_witness :
  exists r : nat,
    CTVoxel.material_index [-1000; 0; 3000]%Z 500%Z = Z.of_nat r /\
    (1 <= r < List.length [-1000; 0; 3000]%Z)%nat /\
    (nth (r - 1) [-1000; 0; 3000]%Z 0 < 500
     <= nth r [-1000; 0; 3000]%Z 0)%Z.
Proof.
  apply (@X1_material_interval [-1000; 0; 3000]%Z 500%Z).
  - repeat constructor; lia.
  - simpl. lia.
  - simpl. lia.
Defined.

(** X2. With non-decreasing boundaries the classification is monotone:
    a larger sample never gets a smaller material index. *)
Theorem X2_material_monotone (hu : list Z) (x y : Z) :
  StronglySorted Z.le hu -> (x <= y)%Z ->
  (CTVoxel.material_index hu x <= CTVoxel.material_index hu y)%Z.
Proof.
  intros Hs Hxy.
  destruct (bisect_left_sorted x Hs) as [Hlx Hrx].
  destruct (bisect_left_sorted y Hs) as [Hly Hry].
  pose proof (bisect_left_le_length hu x) as Hbx.
  assert (Hle : (bisect_left hu x <= bisect_left hu y)%nat).
  { destruct (Nat.le_gt_cases (bisect_left hu x) (bisect_left hu y));
      [assumption|].
    specialize (Hlx (bisect_left hu y) ltac:(lia)).
    specialize (Hry (bisect_left hu y) ltac:(lia)). lia. }
  unfold CTVoxel.material_index.
  destruct (Z.eqb_spec (Z.of_nat (bisect_left hu x)) 0),
           (Z.eqb_spec (Z.of_nat (bisect_left hu y)) 0); lia.
Qed.

Lemma X2_witness :
  (CTVoxel.material_index [-1000; 0; 3000]%Z (-500)
   <= CTVoxel.material_index [-1000; 0; 3000]%Z 500)%Z.
Proof.
  apply X2_material_monotone.
  - repeat constructor; lia.
  - lia.
Defined.

(** X3. With strictly increasing boundaries, a sample equal to boundary
    [j] gets the index [j] (the tie goes to the lower interval), and the
    index 1 when it is the first boundary. *)
Theorem X3_boundary_ties_low (hu : list Z) (j : nat) :
  StronglySorted Z.lt hu -> (j < List.length hu)%nat ->
  CTVoxel.material_index hu (nth j hu 0%Z) = Z.max 1 (Z.of_nat j).
Proof.
  intros Hs Hj.
  pose proof (StronglySorted_nth_lt Hs) as Hlt.
  assert (Hle : StronglySorted Z.le hu).
  { clear -Hs. induction Hs; constructor; auto.
    eapply Forall_impl; [|eassumption]. intros; lia. }
  destruct (bisect_left_sorted (nth j hu 0%Z) Hle) as [Hl Hr].
  pose proof (bisect_left_le_length hu (nth j hu 0%Z)) as Hb.
  assert (E : bisect_left hu (nth j hu 0%Z) = j).
  { set (r := bisect_left hu (nth j hu 0%Z)) in *.
    destruct (Nat.lt_trichotomy r j) as [Hc|[Hc|Hc]]; auto.
    - specialize (Hr r ltac:(lia)). specialize (Hlt r j ltac:(lia)). lia.
    - specialize (Hl j Hc). lia. }
  unfold CTVoxel.material_index. rewrite E.
  destruct (Z.eqb_spec (Z.of_nat j) 0); lia.
Qed.

Lemma X3_witness :
  CTVoxel.material_index [-1000; 0; 3000]%Z (nth 1 [-1000; 0; 3000]%Z 0%Z)
  = Z.max 1 (Z.of_nat 1).
Proof.
  apply X3_boundary_ties_low.
  - repeat constructor; lia.
  - simpl. lia.
Defined.

Lemma first_seen_In (raw : list Z) (x : Z) :
  In x (CTVoxel.first_seen raw) <-> In x raw.
Proof.
  induction raw as [|a rest IH]; simpl; [tauto|].
  rewrite filter_In, IH, negb_true_iff, Z.eqb_neq.
  destruct (Z.eq_dec a x); intuition congruence.
Qed.

Lemma StronglySorted_filter (R : Z -> Z -> Prop) (f : Z -> bool)
    (l : list Z) :
  StronglySorted R l -> StronglySorted R (filter f l).
Proof.
  induction 1 as [|a l Hs IH Hall]; simpl; [constructor|].
  destruct (f a); [|exact IH].
  constructor; [exact IH|].
  rewrite Forall_forall in *. intros y Hy.
  apply filter_In in Hy. apply Hall, Hy.
Qed.

(** X4. The threshold table has no duplicates and holds exactly the
    boundaries given; when the boundaries are given in non-decreasing
    order (adjacent materials sharing a boundary), the table is strictly
    increasing. *)
Theorem X4_threshold_table (raw : list Z) :
  NoDup (CTVoxel.first_seen raw) /\
  (forall x, In x (CTVoxel.first_seen raw) <-> In x raw) /\
  (StronglySorted Z.le raw -> StronglySorted Z.lt (CTVoxel.first_seen raw)).
Proof.
  split; [|split].
  - induction raw as [|a rest IH]; simpl; constructor.
    + rewrite filter_In, Z.eqb_refl. simpl. intros [_ H]. discriminate.
    + now apply NoDup_filter.
  - apply first_seen_In.
  - induction 1 as [|a rest Hs IH Hall]; simpl; constructor.
    + now apply StronglySorted_filter.
    + rewrite Forall_forall in *. intros y Hy.
      apply filter_In in Hy. destruct Hy as [Hy Hne].
      apply (proj1 (first_seen_In _ _)) in Hy. specialize (Hall y Hy).
      apply negb_true_iff, Z.eqb_neq in Hne. lia.
Qed.

Lemma dict_set_keys_present (V : Type) (d : list (Z * V)) (k : Z) (v : V) :
  In k (List.map fst d) ->
  List.map fst (dict_set Z.eqb d k v) = List.map fst d.
Proof.
  induction d as [|[k0 v0] d IH]; simpl; [tauto|].
  intros H. destruct (Z.eqb_spec k0 k) as [->|Hne]; simpl; [reflexivity|].
  f_equal. apply IH. destruct H; [congruence|assumption].
Qed.

Lemma dict_set_keys_absent (V : Type) (d : list (Z * V)) (k : Z) (v : V) :
  ~ In k (List.map fst d) ->
  List.map fst (dict_set Z.eqb d k v) = (List.map fst d ++ [k])%list.
Proof.
  induction d as [|[k0 v0] d IH]; simpl; [reflexivity|].
  intros H. destruct (Z.eqb_spec k0 k) as [->|Hne]; simpl; [tauto|].
  f_equal. apply IH. tauto.
Qed.

(** The invariant of the loop of [_parse_material]: both tables have
    the same keys in the same order, without repetition, and they are
    the keys collected in [keys]. *)
Lemma parse_entry_tables (st st' : CTVoxel.parse_state)
    (entry : string * Config.material_entry) :
  CTVoxel.parse_entry st entry = Ok st' ->
  (let '(_, et, dt, ks) := st in
   List.map fst et = List.map fst dt /\ NoDup (List.map fst dt) /\
   forall k, In k ks <-> In k (List.map fst dt)) ->
  (let '(_, et, dt, ks) := st' in
   List.map fst et = List.map fst dt /\ NoDup (List.map fst dt) /\
   forall k, In k ks <-> In k (List.map fst dt)).
Proof.
  destruct st as [[[raw et] dt] ks], entry as [i m].
  unfold CTVoxel.parse_entry.
  destruct (Config.get (Config.hu_interval m) "hu_interval") as [hu|];
    cbn [Py.bind]; [|discriminate].
  destruct (int_of_str i) as [k|]; cbn [Py.bind]; [|discriminate].
  destruct (Config.get (Config.nucleon m) "nucleon") as [nuc|];
    cbn [Py.bind]; [|discriminate].
  destruct (Config.get (Config.fraction m) "fraction") as [fr|];
    cbn [Py.bind]; [|discriminate].
  destruct (Config.get (Config.density m) "density") as [d|];
    cbn [Py.bind]; [|discriminate].
  intros [= <-] (He & Hn & Hk).
  destruct (in_dec Z.eq_dec k (List.map fst dt)) as [Hin|Hout].
  - rewrite (dict_set_keys_present _ _ _ Hin).
    rewrite dict_set_keys_present by (rewrite He; exact Hin).
    split; [exact He|]. split; [exact Hn|].
    intros k'. rewrite in_app_iff, Hk. simpl.
    intuition (subst; auto).
  - rewrite (dict_set_keys_absent _ _ _ Hout).
    rewrite dict_set_keys_absent by (rewrite He; exact Hout).
    split; [now rewrite He|]. split.
    + apply NoDup_app; [exact Hn|repeat constructor; simpl; tauto|].
      intros y Hy [<-|[]]. contradiction.
    + intros k'. rewrite !in_app_iff, Hk. reflexivity.
Qed.

Lemma parse_entries_tables (mc : Config.material_config)
    (st st' : CTVoxel.parse_state) :
  CTVoxel.parse_entries st mc = Ok st' ->
  (let '(_, et, dt, ks) := st in
   List.map fst et = List.map fst dt /\ NoDup (List.map fst dt) /\
   forall k, In k ks <-> In k (List.map fst dt)) ->
  (let '(_, et, dt, ks) := st' in
   List.map fst et = List.map fst dt /\ NoDup (List.map fst dt) /\
   forall k, In k ks <-> In k (List.map fst dt)).
Proof.
  revert st; induction mc as [|e mc IH]; intros st; simpl.
  - now intros [= <-].
  - destruct (CTVoxel.parse_entry st e) as [st1|] eqn:E; cbn [Py.bind];
      [|discriminate].
    intros H Hinv. apply (IH st1 H). exact (parse_entry_tables _ _ E Hinv).
Qed.

(** X5. In a classifier that was built, the composition table and the
    density table have the same material indices in the same order,
    each once (also when two configuration keys denote the same
    integer), and these are the indices listed in [keys]. *)
Theorem X5_material_tables (ct : Sitk.Image) (mc : Config.material_config)
    (v : CTVoxel.t) :
  CTVoxel.__init__ ct mc = Ok v ->
  List.map fst (CTVoxel.element_table v)
    = List.map fst (CTVoxel.density_table v) /\
  NoDup (List.map fst (CTVoxel.density_table v)) /\
  (forall k, In k (CTVoxel.keys v)
             <-> In k (List.map fst (CTVoxel.density_table v))).
Proof.
  intros Hinit.
  destruct (CTVoxel_init_inv _ _ Hinit) as (raw & lo & hi & Hp & _).
  apply (parse_entries_tables _ _ Hp). simpl.
  split; [reflexivity|]. split; [constructor|]. tauto.
Qed.

Lemma X5_witness :
  exists v,
    CTVoxel.__init__ Examples.row Examples.two_materials = Ok v /\
    List.map fst (CTVoxel.element_table v)
      = List.map fst (CTVoxel.density_table v) /\
    NoDup (List.map fst (CTVoxel.density_table v)) /\
    (forall k, In k (CTVoxel.keys v)
               <-> In k (List.map fst (CTVoxel.density_table v))).
Proof.
  eexists. split.
  - vm_compute. reflexivity.
  - apply (@X5_material_tables Examples.row Examples.two_materials).
    vm_compute. reflexivity.
Defined.

Lemma parse_entries_complete (mc : Config.material_config)
    (raw : list Z) (et : CTVoxel.element_table_t)
    (dt : CTVoxel.density_table_t) (ks : list Z) :
  Forall complete mc ->
  exists et' dt' ks',
    CTVoxel.parse_entries (raw, et, dt, ks) mc
      = Ok ((raw ++ all_boundaries mc)%list, et', dt', (ks ++ ks')%list) /\
    Forall2 (fun entry k => int_of_str (fst entry) = Ok k) mc ks'.
Proof.
  revert raw et dt ks; induction mc as [|[i m] mc IH];
    intros raw et dt ks Hall.
  - exists et, dt, []. simpl. rewrite !app_nil_r. split; constructor.
  - inversion Hall as [|? ? Hhead Htail]; subst.
    destruct Hhead as [Hc Hd].
    destruct Hc as ([k Hk] & Hhu & Hnuc & Hfr); cbn [fst snd] in *.
    cbn [CTVoxel.parse_entries]. unfold CTVoxel.parse_entry.
    unfold all_boundaries; cbn [flat_map snd].
    destruct (Config.hu_interval m) as [hu|]; [|congruence].
    destruct (Config.nucleon m) as [nuc|]; [|congruence].
    destruct (Config.fraction m) as [fr|]; [|congruence].
    destruct (Config.density m) as [d|]; [|congruence].
    rewrite Hk. cbn [Config.get Py.bind].
    destruct (IH (raw ++ hu)%list
                 (dict_set Z.eqb et k (CTVoxel.dict_of_zip nuc fr))
                 (dict_set Z.eqb dt k d) (ks ++ [k])%list Htail)
      as (et' & dt' & ks' & Hp & Hf).
    exists et', dt', (k :: ks'). split.
    + eapply eq_trans; [exact Hp|]. unfold all_boundaries.
      rewrite <- !app_assoc. reflexivity.
    + constructor; assumption.
Qed.



(** X7. A material table without any boundary (no material, or empty
    intervals only) makes the run fail with the [ValueError] of
    [min] of an empty list, before the deck file is opened. *)
Theorem X7_no_boundary (ct : Sitk.Image) (config : Config.t)
    (mc : Config.material_config) :
  Config.material config = Some mc ->
  MCNPGenerator.has_key (Config.mode config) = true ->
  Forall complete mc -> all_boundaries mc = [] ->
  MCNPGenerator.run ct config
  = {| MCNPGenerator.config_after := MCNPGenerator.default_cards config;
       MCNPGenerator.deck := None;
       MCNPGenerator.returned := Raise ValueError |}.
Proof.
  intros Hmat Hmode Hall Hempty.
  destruct (parse_entries_complete [] [] [] [] Hall)
    as (et & dt & ks & Hp & _).
  rewrite Hempty in Hp. cbn [app] in Hp.
  unfold MCNPGenerator.run, MCNPGenerator.init_MC_module.
  rewrite Hmat, Hmode. cbn [MCNPGenerator.has_key andb].
  unfold MCNPGenerator.build_modules.
  cbn [MCNPGenerator.default_cards Config.material Config.get Py.bind].
  rewrite Hmat. cbn [Config.get Py.bind].
  assert (E : CTVoxel._parse_material mc
              = Ok (CTVoxel.first_seen [], et, dt, ks)).
  { unfold CTVoxel._parse_material.
    eapply eq_trans;
      [apply (f_equal (fun r => Py.bind r _)); exact Hp|reflexivity]. }
  unfold CTVoxel.__init__. rewrite E. reflexivity.
Qed.

Lemma X7_witness :
  MCNPGenerator.run Examples.row (Examples.minimal [])
  = {| MCNPGenerator.config_after :=
         MCNPGenerator.default_cards (Examples.minimal []);
       MCNPGenerator.deck := None;
       MCNPGenerator.returned := Raise ValueError |}.
Proof.
  apply (@X7_no_boundary Examples.row (Examples.minimal []) []);
    try reflexivity; constructor.
Defined.

Lemma getitem_map (f : Z -> Z) (a a' : Np.ndarray) (idx : list nat) :
  Np.shape a' = Np.shape a ->
  Np.data a' = List.map f (Np.data a) ->
  (Np.ravel (Np.shape a) idx < List.length (Np.data a))%nat ->
  Np.getitem a' idx = f (Np.getitem a idx).
Proof.
  intros Hsh Hdata Hlt. unfold Np.getitem. rewrite Hsh, Hdata.
  rewrite (nth_indep _ 0%Z (f 0%Z)) by (now rewrite length_map).
  apply map_nth.
Qed.

Lemma ravel_image_bound (ct : Sitk.Image) (x y z : nat) :
  (x < Sitk.nx ct)%nat -> (y < Sitk.ny ct)%nat -> (z < Sitk.nz ct)%nat ->
  (Np.ravel (Np.shape (Sitk.GetArrayFromImage ct)) [z; y; x]
   < List.length (Np.data (Sitk.GetArrayFromImage ct)))%nat.
Proof.
  intros Hx Hy Hz. rewrite (GetArrayFromImage_wf ct).
  cbn [Sitk.GetArrayFromImage Np.shape Np.ravel Np.prod_nat fold_right].
  rewrite !Nat.mul_1_r, Nat.add_0_r.
  assert (H1 : (y * Sitk.nx ct + x < Sitk.ny ct * Sitk.nx ct)%nat).
  { pose proof (Nat.mul_le_mono_r (S y) (Sitk.ny ct) (Sitk.nx ct) Hy).
    simpl in H. lia. }
  assert (H2 : (z * (Sitk.ny ct * Sitk.nx ct) + Sitk.ny ct * Sitk.nx ct
                <= Sitk.nz ct * (Sitk.ny ct * Sitk.nx ct))%nat).
  { pose proof (Nat.mul_le_mono_r (S z) (Sitk.nz ct)
                  (Sitk.ny ct * Sitk.nx ct) Hz).
    simpl in H. lia. }
  lia.
Qed.

(** X8. In a classifier that was built (with fewer than 2^32
    boundaries), the voxel (x, y, z) of the image is found at [z, y, x]
    of both volumes: the intensity volume holds its intensity clipped to
    [min(boundaries), max(boundaries)], unchanged when it was inside,
    and the index volume holds the material index of that clipped
    intensity. *)
Theorem X8_voxel_classified (ct : Sitk.Image) (mc : Config.material_config)
    (v : CTVoxel.t) (x y z : nat) :
  CTVoxel.__init__ ct mc = Ok v ->
  (Z.of_nat (List.length (CTVoxel.hu_interval v)) < 2 ^ 32)%Z ->
  (x < Sitk.nx ct)%nat -> (y < Sitk.ny ct)%nat -> (z < Sitk.nz ct)%nat ->
  exists lo hi,
    py_min (CTVoxel.hu_interval v) = Ok lo /\
    py_max (CTVoxel.hu_interval v) = Ok hi /\
    Np.getitem (CTVoxel.array v) [z; y; x]
      = Np.clip1 lo hi (Sitk.pixel ct x y z) /\
    (lo <= Np.getitem (CTVoxel.array v) [z; y; x] <= hi)%Z /\
    ((lo <= Sitk.pixel ct x y z <= hi)%Z ->
     Np.getitem (CTVoxel.array v) [z; y; x] = Sitk.pixel ct x y z) /\
    Np.getitem (CTVoxel.index_map v) [z; y; x]
      = CTVoxel.material_index (CTVoxel.hu_interval v)
          (Np.getitem (CTVoxel.array v) [z; y; x]).
Proof.
  intros Hinit Hlen Hx Hy Hz.
  destruct (CTVoxel_init_inv _ _ Hinit)
    as (raw & lo & hi & _ & _ & Hmin & Hmax & Harr & Himap & _).
  set (hu := CTVoxel.hu_interval v) in *.
  assert (Hne : hu <> []) by (intros E; rewrite E in Hmin; discriminate).
  destruct (py_min_spec _ Hmin) as [Hlo_all Hlo_in].
  assert (Hlohi : (lo <= hi)%Z).
  { destruct (py_max_spec _ Hmax) as [Hhi_all _].
    rewrite Forall_forall in Hhi_all. now apply Hhi_all. }
  pose proof (ravel_image_bound ct Hx Hy Hz) as Hb.
  assert (Ha : Np.getitem (CTVoxel.array v) [z; y; x]
               = Np.clip1 lo hi (Sitk.pixel ct x y z)).
  { rewrite <- (getitem_image ct Hx Hy Hz).
    apply getitem_map; [now rewrite Harr|now rewrite Harr|exact Hb]. }
  exists lo, hi. split; [exact Hmin|]. split; [exact Hmax|].
  split; [exact Ha|]. rewrite Ha.
  split; [unfold Np.clip1; lia|].
  split; [unfold Np.clip1; lia|].
  rewrite <- Ha.
  destruct (@convert_spec (CTVoxel.array v) hu) as [Hsh Hdata].
  { rewrite Harr. apply clip_wf, GetArrayFromImage_wf. }
  rewrite <- Himap in Hsh, Hdata.
  rewrite (@getitem_map
             (fun s => Np.to_uint32 (CTVoxel.material_index hu s))
             (CTVoxel.array v) (CTVoxel.index_map v) [z; y; x] Hsh Hdata).
  - apply to_uint32_small.
    pose proof (@material_index_range hu
                  (Np.getitem (CTVoxel.array v) [z; y; x]) Hne). lia.
  - rewrite Harr. cbn [Np.clip Np.shape Np.data]. rewrite length_map.
    exact Hb.
Qed.

Lemma X8_witness :
  exists v lo hi,
    CTVoxel.__init__ Examples.row Examples.two_materials = Ok v /\
    py_min (CTVoxel.hu_interval v) = Ok lo /\
    py_max (CTVoxel.hu_interval v) = Ok hi /\
    Np.getitem (CTVoxel.array v) [0; 0; 1]%nat
      = Np.clip1 lo hi (Sitk.pixel Examples.row 1 0 0) /\
    Np.getitem (CTVoxel.index_map v) [0; 0; 1]%nat
      = CTVoxel.material_index (CTVoxel.hu_interval v)
          (Np.getitem (CTVoxel.array v) [0; 0; 1]%nat).
Proof.
  destruct (CTVoxel.__init__ Examples.row Examples.two_materials)
    as [v|e] eqn:E; [|vm_compute in E; discriminate].
  pose proof E as Hv. vm_compute in Hv. injection Hv as Hv.
  destruct (@X8_voxel_classified Examples.row Examples.two_materials v
              1%nat 0%nat 0%nat E)
    as (lo & hi & H1 & H2 & H3 & _ & _ & H4).
  - rewrite <- Hv. vm_compute. reflexivity.
  - simpl. lia.
  - simpl. lia.
  - simpl. lia.
  - exists v, lo, hi. auto.
Defined.

(** X9. With a single distinct boundary the classification is
    degenerate: every voxel gets the material index 1. *)
Theorem X9_single_boundary (ct : Sitk.Image) (mc : Config.material_config)
    (v : CTVoxel.t) :
  CTVoxel.__init__ ct mc = Ok v ->
  List.length (CTVoxel.hu_interval v) = 1%nat ->
  Forall (fun index => index = 1%Z) (Np.data (CTVoxel.index_map v)).
Proof.
  intros Hinit Hone.
  destruct (CTVoxel_init_inv _ _ Hinit)
    as (raw & lo & hi & _ & _ & _ & _ & Harr & Himap & _).
  destruct (@convert_spec (CTVoxel.array v) (CTVoxel.hu_interval v))
    as [_ Hdata].
  { rewrite Harr. apply clip_wf, GetArrayFromImage_wf. }
  rewrite Himap, Hdata. apply Forall_map, Forall_forall. intros s _.
  assert (Hne : CTVoxel.hu_interval v <> [])
    by (intros E; rewrite E in Hone; discriminate).
  pose proof (@material_index_range (CTVoxel.hu_interval v) s Hne) as Hr.
  rewrite Hone in Hr. rewrite to_uint32_small; lia.
Qed.

Lemma X9_witness :
  exists v,
    CTVoxel.__init__ Examples.row [("1"%string, Examples.tissue [0]%Z "-1.0")]
      = Ok v /\
    Forall (fun index => index = 1%Z) (Np.data (CTVoxel.index_map v)).
Proof.
  eexists. split.
  - vm_compute. reflexivity.
  - apply (@X9_single_boundary Examples.row
             [("1"%string, Examples.tissue [0]%Z "-1.0")]).
    + vm_compute. reflexivity.
    + reflexivity.
Defined.

(* ===================================================================== *)
(** * Further properties: the phantom box and the fill list *)
(* ===================================================================== *)

(** The planes of one axis of the phantom cell. *)
Lemma phantom_axis_planes (size : list Z) (spacing : list Q) (axis : nat)
    (upper lower plane sep : string) (n : Z) (s : Q) :
  nth_error size axis = Some n ->
  nth_error spacing axis = Some s ->
  exists part,
    Geometry.phantom_axis size spacing (List.map (fun n => (n / 2)%Z) size)
                          axis upper lower plane sep = Ok part /\
    Geometry.limit part =
      (if (n mod 2 =? 0)%Z then inject_Z (n + 1) * s else inject_Z n * s)%Q /\
    Geometry.origin part =
      (if (n mod 2 =? 0)%Z then inject_Z (- n + 1) * s
       else inject_Z (- n) * s)%Q.
Proof.
  intros Hn Hs. unfold Geometry.phantom_axis.
  rewrite (vec_get_nth_error _ _ Hn); cbn [Py.bind].
  assert (Hh : Np.vec_get (List.map (fun n => (n / 2)%Z) size) axis
               = Ok (n / 2)%Z).
  { apply vec_get_nth_error. now rewrite nth_error_map, Hn. }
  destruct (n mod 2 =? 0)%Z;
    rewrite (vec_get_nth_error _ _ Hs), Hh; cbn [Py.bind];
    eexists; repeat split; reflexivity.
Qed.



(** X11. For even voxel counts [2k] the phantom box is exactly the
    lattice cells of the fill range [-k+1 : k]: with cell [i] reaching
    from (2i - 1) x spacing to (2i + 1) x spacing, the origin plane is
    the lower face of cell [-k+1] and the limit plane the upper face of
    cell [k], and the range holds [2k] indices. *)
Theorem X11_even_box_matches_fill (k0 k1 k2 : Z) (s0 s1 s2 : Q) :
  exists ph,
    Geometry._build_phantom_cell_surfaces
      [2 * k0; 2 * k1; 2 * k2]%Z [s0; s1; s2] = Ok ph /\
    Geometry.ph_fill ph =
      ("fill="
       ++ (str_int (- k0 + 1) ++ ":" ++ str_int k0 ++ " ")
       ++ (str_int (- k1 + 1) ++ ":" ++ str_int k1 ++ " ")
       ++ (str_int (- k2 + 1) ++ ":" ++ str_int k2 ++ ""))%string /\
    Forall2 Qeq (Geometry.ph_origin ph)
      [inject_Z (2 * (- k0 + 1) - 1) * s0;
       inject_Z (2 * (- k1 + 1) - 1) * s1;
       inject_Z (2 * (- k2 + 1) - 1) * s2]%Q /\
    Forall2 Qeq (Geometry.ph_limit ph)
      [inject_Z (2 * k0 + 1) * s0; inject_Z (2 * k1 + 1) * s1;
       inject_Z (2 * k2 + 1) * s2]%Q /\
    (k0 - (- k0 + 1) + 1 = 2 * k0 /\ k1 - (- k1 + 1) + 1 = 2 * k1 /\
     k2 - (- k2 + 1) + 1 = 2 * k2)%Z.
Proof.
  set (size := [2 * k0; 2 * k1; 2 * k2]%Z).
  destruct (@build_phantom_ok (2 * k0) (2 * k1) (2 * k2) s0 s1 s2 [] [])
    as (x & y & z & Hx & Hy & Hz & Hph).
  fold size in Hx, Hy, Hz, Hph.
  destruct (@phantom_axis_ok size [s0; s1; s2] 0 "111" "112" "px" " "
              _ s0 eq_refl eq_refl) as (x' & Hx' & Fx & _).
  destruct (@phantom_axis_ok size [s0; s1; s2] 1 "113" "114" "py" " "
              _ s1 eq_refl eq_refl) as (y' & Hy' & Fy & _).
  destruct (@phantom_axis_ok size [s0; s1; s2] 2 "115" "116" "pz" ""
              _ s2 eq_refl eq_refl) as (z' & Hz' & Fz & _).
  destruct (@phantom_axis_planes size [s0; s1; s2] 0 "111" "112" "px" " "
              _ s0 eq_refl eq_refl) as (x2 & Hx2 & Lx & Ox).
  destruct (@phantom_axis_planes size [s0; s1; s2] 1 "113" "114" "py" " "
              _ s1 eq_refl eq_refl) as (y2 & Hy2 & Ly & Oy).
  destruct (@phantom_axis_planes size [s0; s1; s2] 2 "115" "116" "pz" ""
              _ s2 eq_refl eq_refl) as (z2 & Hz2 & Lz & Oz).
  assert (x' = x) by congruence. assert (y' = y) by congruence.
  assert (z' = z) by congruence. assert (x2 = x) by congruence.
  assert (y2 = y) by congruence. assert (z2 = z) by congruence.
  subst x' y' z' x2 y2 z2.
  assert (P : forall k, ((2 * k) / 2 = k /\ ((2 * k) mod 2 =? 0) = true)%Z).
  { intros k. pose proof (parity_split k false) as [D M].
    cbn [Z.b2z negb] in D, M. rewrite Z.add_0_r in D, M. auto. }
  destruct (P k0) as [D0 M0]. destruct (P k1) as [D1 M1].
  destruct (P k2) as [D2 M2].
  rewrite D0, M0 in Fx. rewrite D1, M1 in Fy. rewrite D2, M2 in Fz.
  rewrite M0 in Lx, Ox. rewrite M1 in Ly, Oy. rewrite M2 in Lz, Oz.
  eexists. split; [exact Hph|]. cbn [Geometry.ph_fill Geometry.ph_origin
                                    Geometry.ph_limit].
  rewrite Fx, Fy, Fz, Lx, Ly, Lz, Ox, Oy, Oz.
  split; [reflexivity|].
  split; [|split; [|lia]].
  - repeat (constructor;
      [match goal with
       | |- (inject_Z ?a * _ == inject_Z ?b * _)%Q =>
           replace a with b by lia; reflexivity
       end|]).
    constructor.
  - repeat (constructor; [reflexivity|]). constructor.
Qed.

Lemma not_space_not_newline (c : ascii) :
  not_space c = true -> Ascii.eqb c "010" = false.
Proof.
  unfold not_space. intros H. apply negb_true_iff in H.
  destruct (Ascii.eqb_spec c "010") as [->|]; [discriminate|reflexivity].
Qed.

(** A field without white space is read in one go, also line by line. *)
Lemma rows_field (field rest cur : string) (row : list string) :
  Reader.all_chars not_space field = true ->
  Layout.rows (field ++ rest) cur row
  = Layout.rows rest (cur ++ field) row.
Proof.
  revert cur; induction field as [|c field IH]; intros cur H; simpl in *.
  - now rewrite append_nil_r.
  - apply andb_prop in H. destruct H as [Hc Hf].
    rewrite (not_space_not_newline _ Hc).
    unfold not_space in Hc. apply negb_true_iff in Hc. rewrite Hc.
    rewrite IH by exact Hf. now rewrite append_assoc.
Qed.

Lemma flush_str_int (v : Z) : Layout.flush (str_int v) = [str_int v].
Proof.
  pose proof (str_int_nonempty v). unfold Layout.flush.
  destruct (str_int v); [congruence|reflexivity].
Qed.

Lemma wrap_counter (accumulator : Z) (row : list Z) :
  (1 <= accumulator)%Z ->
  Z.of_nat (List.length row) = ((accumulator - 1) mod 20)%Z ->
  ((accumulator mod 20 =? 0)%Z = (List.length row + 1 =? 20)%nat) /\
  ((accumulator mod 20 =? 0)%Z = false ->
   Z.of_nat (List.length row + 1) = (accumulator mod 20)%Z).
Proof.
  intros Hacc Hlen. split.
  - destruct (Z.eqb_spec (accumulator mod 20) 0) as [E|E];
      destruct (Nat.eqb_spec (List.length row + 1) 20) as [F|F];
      try reflexivity; exfalso;
      revert Hlen E; Z.to_euclidean_division_equations; lia.
  - intros E. apply Z.eqb_neq in E.
    revert Hlen E; Z.to_euclidean_division_equations; lia.
Qed.

(** The lines of the fill list, for a counter that has reached
    [accumulator] with [row] already on the current line. *)
Lemma rows_fill_text (values : list Z) (accumulator : Z) (row : list Z) :
  (1 <= accumulator)%Z ->
  Z.of_nat (List.length row) = ((accumulator - 1) mod 20)%Z ->
  Layout.rows
    (fst (Geometry.write_fill_list values accumulator
            (accumulator + Z.of_nat (List.length values) - 1) ""%string))
    "" (List.map str_int row)
  = List.map (List.map str_int) (Layout.group_rows 20 values row).
Proof.
  revert accumulator row.
  induction values as [|v rest IH]; intros accumulator row Hacc Hlen.
  - cbn [Geometry.write_fill_list IO.ret fst Layout.rows Layout.flush
         Layout.group_rows].
    rewrite app_nil_r. destruct row; reflexivity.
  - rewrite fill_text_cons.
    replace (accumulator + Z.of_nat (List.length (v :: rest)) - 1)%Z
      with (accumulator + 1 + Z.of_nat (List.length rest) - 1)%Z
      by (cbn [List.length]; lia).
    set (total := (accumulator + 1 + Z.of_nat (List.length rest) - 1)%Z).
    cbn [append Layout.rows Ascii.eqb Bool.eqb Reader.is_space
         Layout.flush].
    rewrite app_nil_r.
    rewrite rows_field by apply str_int_no_space.
    cbn [append].
    destruct (@wrap_counter accumulator row Hacc Hlen) as [Hfull Hnext].
    cbn [Layout.group_rows]. rewrite length_app. cbn [List.length].
    rewrite <- Hfull. unfold Geometry.wrap.
    destruct (accumulator mod 20 =? 0)%Z eqn:Emod; cbn [andb negb].
    + (* the line is full *)
      destruct (Z.eqb_spec accumulator total) as [Etot|Etot];
        cbn [negb append Layout.rows Ascii.eqb Bool.eqb Text.nl
             Reader.is_space].
      * assert (rest = []) by (destruct rest; [reflexivity|];
          unfold total in Etot; cbn [List.length] in Etot; lia).
        subst rest.
        cbn [Geometry.write_fill_list IO.ret fst append Layout.rows
             Layout.flush Layout.group_rows List.map app].
        rewrite flush_str_int, map_app. reflexivity.
      * rewrite flush_str_int.
        cbn [Layout.flush app].
        specialize (IH (accumulator + 1)%Z [] ltac:(lia)).
        cbn [List.length List.map] in IH. fold total in IH.
        rewrite IH.
        -- cbn [List.map]. rewrite map_app. reflexivity.
        -- apply Z.eqb_eq in Emod. revert Emod.
           replace (accumulator + 1 - 1)%Z with accumulator by lia.
           intros ->. reflexivity.
    + (* room is left on the line *)
      specialize (Hnext eq_refl).
      destruct (Z.eqb_spec accumulator total) as [Etot|Etot];
        cbn [append Layout.rows Ascii.eqb Bool.eqb Text.nl
             Reader.is_space].
      * assert (rest = []) by (destruct rest; [reflexivity|];
          unfold total in Etot; cbn [List.length] in Etot; lia).
        subst rest.
        cbn [Geometry.write_fill_list IO.ret fst append Layout.rows
             Layout.flush Layout.group_rows List.map app].
        rewrite flush_str_int.
        destruct (row ++ [v])%list eqn:E; [destruct row; discriminate|].
        rewrite <- E. cbn [List.map]. rewrite map_app. reflexivity.
      * specialize (IH (accumulator + 1)%Z (row ++ [v])%list ltac:(lia)).
        fold total in IH. rewrite map_app in IH. cbn [List.map] in IH.
        rewrite <- IH.
        -- destruct rest as [|w rest'];
             [unfold total in Etot; cbn [List.length] in Etot; lia|].
           rewrite fill_text_cons.
           cbn [append Layout.rows Ascii.eqb Bool.eqb Reader.is_space
                Layout.flush].
           rewrite flush_str_int, app_nil_r. reflexivity.
        -- rewrite length_app. cbn [List.length].
           replace (accumulator + 1 - 1)%Z with accumulator by lia.
           exact Hnext.
Qed.

Lemma group_rows_spec (width : nat) (values row : list Z) :
  (List.length row < width)%nat ->
  List.concat (Layout.group_rows width values row) = (row ++ values)%list /\
  Forall (fun r => (1 <= List.length r <= width)%nat)
         (Layout.group_rows width values row) /\
  Forall (fun r => List.length r = width)
         (removelast (Layout.group_rows width values row)).
Proof.
  revert row; induction values as [|v rest IH]; intros row Hrow.
  - cbn [Layout.group_rows]. destruct row as [|x row].
    + repeat split; constructor.
    + cbn [List.concat removelast]. rewrite !app_nil_r.
      split; [reflexivity|]. split; [|constructor].
      constructor; [simpl in *; lia|constructor].
  - cbn [Layout.group_rows].
    destruct (Nat.eqb_spec (List.length (row ++ [v])) width) as [E|E].
    + destruct (IH [] ltac:(simpl; lia)) as (Hc & Hall & Hfull).
      cbn [List.concat]. rewrite Hc. split; [now rewrite <- app_assoc|].
      split; [constructor; [lia|exact Hall]|].
      cbn [removelast].
      destruct (Layout.group_rows width rest []) as [|r rs] eqn:G;
        [constructor|].
      constructor; [exact E|exact Hfull].
    + rewrite length_app in E; cbn [List.length] in E.
      destruct (IH (row ++ [v])%list) as (Hc & Hall & Hfull).
      { rewrite length_app; cbn [List.length]. lia. }
      rewrite Hc, <- app_assoc. repeat split; assumption.
Qed.

Lemma fill_lines (values : list Z) :
  Layout.lines
    ("    " ++ fst (Geometry.write_fill_list values 1
                      (Z.of_nat (List.length values)) ""%string))
  = List.map (List.map str_int) (Layout.group_rows 20 values []).
Proof.
  unfold Layout.lines.
  cbn [append Layout.rows Ascii.eqb Bool.eqb Reader.is_space Layout.flush
       app].
  pose proof (@rows_fill_text values 1 [] ltac:(lia) eq_refl) as H.
  replace (1 + Z.of_nat (List.length values) - 1)%Z
    with (Z.of_nat (List.length values)) in H by lia.
  exact H.
Qed.

(** A fill list that is not empty ends with a newline. *)
Lemma fill_text_ends_with_newline (values : list Z) (accumulator : Z) :
  values <> [] ->
  exists body,
    fst (Geometry.write_fill_list values accumulator
           (accumulator + Z.of_nat (List.length values) - 1) ""%string)
    = (body ++ Text.nl)%string.
Proof.
  revert accumulator; induction values as [|v rest IH];
    intros accumulator Hne; [congruence|].
  rewrite fill_text_cons.
  replace (accumulator + Z.of_nat (List.length (v :: rest)) - 1)%Z
    with (accumulator + 1 + Z.of_nat (List.length rest) - 1)%Z
    by (cbn [List.length]; lia).
  destruct rest as [|w rest'].
  - cbn [List.length Geometry.write_fill_list IO.ret fst].
    replace (accumulator + 1 + Z.of_nat 0 - 1)%Z with accumulator by lia.
    unfold Geometry.wrap. rewrite Z.eqb_refl.
    exists (" " ++ str_int v)%string.
    destruct (accumulator mod 20 =? 0)%Z; cbn [andb negb];
      now rewrite append_nil_r, ?append_assoc.
  - destruct (IH (accumulator + 1)%Z ltac:(discriminate)) as [body Hb].
    rewrite Hb.
    exists (" " ++ str_int v
            ++ Geometry.wrap accumulator
                 (accumulator + 1 + Z.of_nat (List.length (w :: rest')) - 1)
            ++ body)%string.
    now rewrite !append_assoc.
Qed.

(** What [Geometry.__init__] copies from the classifier. *)
Lemma Geometry_init_fields (voxel : CTVoxel.t) (mode : list string)
    (g : Geometry.t) :
  Geometry.__init__ voxel mode = Ok g ->
  Geometry.index_map g = CTVoxel.index_map voxel /\
  Geometry.size g = CTVoxel.size voxel /\
  Geometry.spacing g = CTVoxel.spacing voxel /\
  Geometry.mode g = join "," mode.
Proof.
  unfold Geometry.__init__.
  destruct (Geometry._build_base_cell_surfaces _) as [base|];
    cbn [Py.bind]; [|discriminate].
  destruct (Geometry._build_phantom_cell_surfaces _ _) as [ph|];
    cbn [Py.bind]; [|discriminate].
  destruct (Geometry._build_world_surface _ _) as [world|];
    cbn [Py.bind]; [|discriminate].
  intros [= <-]. cbn. auto.
Qed.

Lemma length_nditer (a : Np.ndarray) :
  List.length (Np.nditer a) = Np.prod_nat (Np.shape a).
Proof.
  unfold Np.nditer. rewrite length_map.
  rewrite <- (length_map (Np.ravel (Np.shape a))), ravel_ndindex.
  apply length_seq.
Qed.

(** X12. For a geometry built on the classifier of an image, the fill
    list, read together with the indentation written before it, is laid
    out in lines of exactly 20 values, the last line holding the
    remaining 1 to 20 values; no line is empty, the values are those of
    the index volume in order, and the text ends with a newline. *)
Theorem X12_fill_list_lines (ct : Sitk.Image) (mc : Config.material_config)
    (v : CTVoxel.t) (mode : list string) (g : Geometry.t) :
  CTVoxel.__init__ ct mc = Ok v ->
  Geometry.__init__ v mode = Ok g ->
  exists lines_,
    Layout.lines
      ("    " ++ fst (Geometry.write_fill_list
                        (Np.nditer (Geometry.index_map g)) 1
                        (Np.prod (Geometry.size g)) ""%string))
    = List.map (List.map str_int) lines_ /\
    List.concat lines_ = Np.nditer (Geometry.index_map g) /\
    Forall (fun r => (1 <= List.length r <= 20)%nat) lines_ /\
    Forall (fun r => List.length r = 20%nat) (removelast lines_) /\
    (Np.nditer (Geometry.index_map g) <> [] ->
     exists body,
       fst (Geometry.write_fill_list
              (Np.nditer (Geometry.index_map g)) 1
              (Np.prod (Geometry.size g)) ""%string)
       = (body ++ Text.nl)%string).
Proof.
  intros Hv Hg.
  destruct (Geometry_init_fields _ _ Hg) as (Him & Hsz & _).
  destruct (CTVoxel_init_inv _ _ Hv)
    as (raw & lo & hi & _ & _ & _ & _ & Harr & Himap & Hsize & _).
  assert (Hwf : Np.wf (CTVoxel.array v))
    by (rewrite Harr; apply clip_wf, GetArrayFromImage_wf).
  destruct (@convert_spec (CTVoxel.array v) (CTVoxel.hu_interval v) Hwf)
    as [Hsh _].
  rewrite <- Himap in Hsh.
  assert (Htotal : Np.prod (Geometry.size g)
                   = Z.of_nat (List.length
                                 (Np.nditer (Geometry.index_map g)))).
  { rewrite length_nditer, Him, Hsh, Hsz, Hsize, Harr.
    unfold Np.prod, Sitk.GetSize;
      cbn [fold_left Np.prod_nat fold_right Np.shape Np.clip
           Sitk.GetArrayFromImage].
    rewrite !Nat2Z.inj_mul. simpl (Z.of_nat 1). ring. }
  rewrite Htotal.
  set (values := Np.nditer (Geometry.index_map g)).
  destruct (@group_rows_spec 20 values [] ltac:(simpl; lia))
    as (Hc & Hall & Hfull).
  exists (Layout.group_rows 20 values []).
  split; [apply fill_lines|]. split; [exact Hc|].
  split; [exact Hall|]. split; [exact Hfull|].
  intros Hne.
  destruct (@fill_text_ends_with_newline values 1 Hne) as [body Hb].
  exists body. rewrite <- Hb. f_equal. f_equal. lia.
Qed.

Lemma X12_witness :
  exists (v : CTVoxel.t) (g : Geometry.t) (lines_ : list (list Z)),
    CTVoxel.__init__ (Examples.cube 3 20) Examples.two_materials = Ok v /\
    Geometry.__init__ v ["n"; "p"]%string = Ok g /\
    Layout.lines
      ("    " ++ fst (Geometry.write_fill_list
                        (Np.nditer (Geometry.index_map g)) 1
                        (Np.prod (Geometry.size g)) ""%string))
    = List.map (List.map str_int) lines_ /\
    List.concat lines_ = Np.nditer (Geometry.index_map g) /\
    Forall (fun r => (1 <= List.length r <= 20)%nat) lines_.
Proof.
  destruct (CTVoxel.__init__ (Examples.cube 3 20) Examples.two_materials)
    as [v|e] eqn:Ev; [|vm_compute in Ev; discriminate].
  destruct (Geometry.__init__ v ["n"; "p"]%string) as [g|e] eqn:Eg.
  - destruct (@X12_fill_list_lines (Examples.cube 3 20)
                Examples.two_materials v ["n"; "p"]%string g Ev Eg)
      as (lines_ & H1 & H2 & H3 & _).
    exists v, g, lines_. auto.
  - exfalso. vm_compute in Ev. injection Ev as <-.
    vm_compute in Eg. discriminate.
Defined.

(* ===================================================================== *)
(** * Further properties: the section writers *)
(* ===================================================================== *)


Lemma Material_to_file_appends (m : Material.t) :
  appends (Material.to_file m)
    (fold_right
       (fun entry rest =>
          (("M" ++ str_int (fst entry) ++ Text.nl)
           ++ Material._parse_elements_dict (snd entry)) ++ rest)%string
       ""%string (Material.element_table m)).
Proof.
  unfold Material.to_file.
  apply (@appends_for_each _ _ _
           (fun entry =>
              (("M" ++ str_int (fst entry) ++ Text.nl)
               ++ Material._parse_elements_dict (snd entry))%string)).
  intros entry _. apply appends_seq; apply appends_write.
Qed.


Lemma Source_to_file_raises (s : Source.t) (file : string) :
  Source.si_sp_str s = None ->
  Source.to_file s file
  = ((file ++ Source.source_str s)%string,
     Raise (AttributeError "si_sp_str")).
Proof.
  intros H. unfold Source.to_file. rewrite bind_write, H. reflexivity.
Qed.













(* ===================================================================== *)
(** * Further properties: the whole deck *)
(* ===================================================================== *)

Lemma bind_appends {B} (c : IO.t unit) (k : unit -> IO.t B) (text : string)
    (file : string) :
  appends c text -> IO.bind c k file = k tt (file ++ text)%string.
Proof. intros H. unfold IO.bind. now rewrite H. Qed.

(** The geometry writer of a geometry built on a constructed classifier
    appends a text of its own. *)
Lemma Geometry_to_file_appends (ct : Sitk.Image)
    (mc : Config.material_config) (v : CTVoxel.t) (md : list string)
    (g : Geometry.t) :
  CTVoxel.__init__ ct mc = Ok v -> Geometry.__init__ v md = Ok g ->
  exists geo, appends (Geometry.to_file g) geo.
Proof.
  intros Hv Hg.
  destruct (Geometry_init_inv _ _ Hg)
    as (n0 & n1 & n2 & ns & o0 & o1 & o2 & l0 & l1 & l2 & _ & _ & _ & Hk & Hd).
  destruct (@Geometry_to_file_layout g) as (cells & surfaces & H).
  { rewrite Hk, Hd. exact (CTVoxel_keys_have_density _ _ Hv). }
  eexists. exact H.
Qed.



(** The modules of a configuration whose classifier, geometry and source
    writer are constructed. *)
Lemma build_modules_ok (ct : Sitk.Image) (config : Config.t)
    (mc : Config.material_config) (md : list string) (v : CTVoxel.t)
    (g : Geometry.t) (sc : option Config.source_config) (s : Source.t) :
  Config.material config = Some mc ->
  Config.mode config = Some md ->
  CTVoxel.__init__ ct mc = Ok v ->
  Geometry.__init__ v md = Ok g ->
  Config.source (MCNPGenerator.default_cards config) = Some sc ->
  Source.__init__ sc = Ok s ->
  exists tc oc,
    MCNPGenerator.init_MC_module ct config
    = (MCNPGenerator.default_cards config,
       Ok {| MCNPGenerator.voxel := v;
             MCNPGenerator.material := Material.__init__ v;
             MCNPGenerator.geom := g;
             MCNPGenerator.source := s;
             MCNPGenerator.tally := Tally.__init__ g md tc;
             MCNPGenerator.out := OutControl.__init__ oc |}).
Proof.
  intros Hmat Hmode Hv Hg Hsc Hs.
  unfold MCNPGenerator.init_MC_module. rewrite Hmat, Hmode.
  cbn [MCNPGenerator.has_key andb]. unfold MCNPGenerator.build_modules.
  rewrite Hsc.
  cbn [MCNPGenerator.default_cards Config.material Config.mode Config.tally
       Config.outcontrol].
  rewrite Hmat, Hmode. cbn [Config.get Py.bind]. rewrite Hv.
  cbn [Py.bind]. rewrite Hg. cbn [Py.bind]. rewrite Hs. cbn [Py.bind].
  destruct (Config.tally config) as [tc|], (Config.outcontrol config) as [oc|];
    cbn [MCNPGenerator.default_card Config.get Py.bind];
    do 2 eexists; reflexivity.
Qed.



(** X16. When the classifier and the geometry are constructed and the
    [source] key is absent or bound to [None], [run] raises the
    [AttributeError] of the missing [si_sp_str]: the deck file is left
    with the geometry section, the material cards and the [SDEF] line,
    and the tally and output-control sections are never written. *)
Theorem X16_run_without_source (ct : Sitk.Image) (config : Config.t)
    (mc : Config.material_config) (md : list string) (v : CTVoxel.t)
    (g : Geometry.t) :
  Config.material config = Some mc ->
  Config.mode config = Some md ->
  CTVoxel.__init__ ct mc = Ok v ->
  Geometry.__init__ v md = Ok g ->
  Config.source config = None \/ Config.source config = Some None ->
  exists geo mat,
    appends (Geometry.to_file g) geo /\
    appends (Material.to_file (Material.__init__ v)) mat /\
    MCNPGenerator.run ct config
    = {| MCNPGenerator.config_after := MCNPGenerator.default_cards config;
         MCNPGenerator.deck :=
           Some ("c Geometry" ++ Text.nl ++ geo ++ Text.nl
                 ++ "c Data" ++ Text.nl ++ mat ++ "SDEF" ++ Text.nl)%string;
         MCNPGenerator.returned := Raise (AttributeError "si_sp_str") |}.
Proof.
  intros Hmat Hmode Hv Hg Hsrc.
  assert (Hsc : Config.source (MCNPGenerator.default_cards config)
                = Some None)
    by (cbn; destruct Hsrc as [-> | ->]; reflexivity).
  destruct (@build_modules_ok ct config mc md v g None _ Hmat Hmode Hv Hg
              Hsc eq_refl) as (tc & oc & E).
  destruct (@Geometry_to_file_appends ct mc v md g Hv Hg) as [geo Hgeo].
  assert (Hmat' : exists mat,
             appends (Material.to_file (Material.__init__ v)) mat)
    by (eexists; apply Material_to_file_appends).
  destruct Hmat' as [mat Hmat'].
  exists geo, mat. split; [exact Hgeo|]. split; [exact Hmat'|].
  unfold MCNPGenerator.run. rewrite E. unfold MCNPGenerator.to_file.
  cbn [MCNPGenerator.geom MCNPGenerator.material MCNPGenerator.source
       MCNPGenerator.tally MCNPGenerator.out].
  rewrite bind_write, (bind_appends _ _ Hgeo), !bind_write,
    (bind_appends _ _ Hmat').
  unfold IO.bind at 1.
  match goal with
  | |- context [Source.to_file ?s ?f] =>
      rewrite (@Source_to_file_raises s f eq_refl)
  end.
  cbn [Source.source_str append]. rewrite ?append_assoc. reflexivity.
Qed.

Lemma X16_witness :
  exists (v : CTVoxel.t) (g : Geometry.t),
    CTVoxel.__init__ (Examples.cube 2 20) Examples.two_materials = Ok v /\
    Geometry.__init__ v ["n"; "p"]%string = Ok g /\
    MCNPGenerator.returned
      (MCNPGenerator.run (Examples.cube 2 20)
         (Examples.minimal Examples.two_materials))
    = Raise (AttributeError "si_sp_str").
Proof.
  destruct (CTVoxel.__init__ (Examples.cube 2 20) Examples.two_materials)
    as [v|e] eqn:Ev; [|vm_compute in Ev; discriminate].
  destruct (Geometry.__init__ v ["n"; "p"]%string) as [g|e] eqn:Eg.
  - destruct (@X16_run_without_source (Examples.cube 2 20)
                (Examples.minimal Examples.two_materials)
                Examples.two_materials ["n"; "p"]%string v g
                eq_refl eq_refl Ev Eg (or_introl eq_refl))
      as (geo & mat & _ & _ & R).
    exists v, g. rewrite R. auto.
  - exfalso. vm_compute in Ev. injection Ev as <-.
    vm_compute in Eg. discriminate.
Defined.

Lemma default_cards_idempotent (config : Config.t) :
  MCNPGenerator.default_cards (MCNPGenerator.default_cards config)
  = MCNPGenerator.default_cards config.
Proof.
  unfold MCNPGenerator.default_cards; cbn.
  destruct (Config.source config), (Config.tally config),
    (Config.outcontrol config); reflexivity.
Qed.

Lemma init_MC_module_again (ct ct' : Sitk.Image) (config : Config.t) :
  MCNPGenerator.init_MC_module ct'
    (fst (MCNPGenerator.init_MC_module ct config))
  = MCNPGenerator.init_MC_module ct' config.
Proof.
  unfold MCNPGenerator.init_MC_module.
  destruct (MCNPGenerator.has_key (Config.material config)
            && MCNPGenerator.has_key (Config.mode config)) eqn:E;
    cbn [fst]; [|now rewrite E].
  cbn [MCNPGenerator.default_cards Config.material Config.mode].
  rewrite E. fold (MCNPGenerator.default_cards config).
  now rewrite default_cards_idempotent.
Qed.

Lemma config_after_run (ct : Sitk.Image) (config : Config.t) :
  MCNPGenerator.config_after (MCNPGenerator.run ct config)
  = fst (MCNPGenerator.init_MC_module ct config).
Proof.
  unfold MCNPGenerator.run.
  destruct (MCNPGenerator.init_MC_module ct config) as [config' [m|e]];
    [|reflexivity].
  destruct (MCNPGenerator.to_file m ""%string). reflexivity.
Qed.

(** X17. [run] changes the configuration it is given (it binds the
    absent optional keys to [None]); the configuration one run leaves
    behind gives, for any image, the same deck, the same result and the
    same configuration as the original one.  The runs of [main.py] over
    a list of images, which share one configuration, are therefore
    independent of each other. *)
Theorem X17_shared_configuration (ct ct' : Sitk.Image) (config : Config.t) :
  MCNPGenerator.run ct'
    (MCNPGenerator.config_after (MCNPGenerator.run ct config))
  = MCNPGenerator.run ct' config.
Proof.
  rewrite config_after_run. unfold MCNPGenerator.run.
  now rewrite init_MC_module_again.
Qed.

(* ===================================================================== *)
(** * Further properties: tables, tallies and printed lists *)
(* ===================================================================== *)

Lemma combine_firstn_min {A B} (xs : list A) (ys : list B) :
  combine xs ys
  = combine (firstn (Nat.min (List.length xs) (List.length ys)) xs)
            (firstn (Nat.min (List.length xs) (List.length ys)) ys).
Proof.
  revert ys; induction xs as [|x xs IH]; intros [|y ys]; simpl;
    try reflexivity.
  f_equal. apply IH.
Qed.

Lemma concat_cons (x : string) (l : list string) :
  String.concat "" (x :: l) = (x ++ String.concat "" l)%string.
Proof.
  destruct l as [|y l]; simpl; [now rewrite append_nil_r|reflexivity].
Qed.

Lemma rows_lines (xs ys : list string) (acc : string) :
  fold_left
    (fun acc xy =>
       (acc ++ "     " ++ fst xy ++ "     " ++ snd xy ++ Text.nl)%string)
    (combine xs ys) acc
  = (acc
     ++ String.concat ""
          (List.map
             (fun xy =>
                ("     " ++ fst xy ++ "     " ++ snd xy ++ Text.nl)%string)
             (combine xs ys)))%string.
Proof.
  revert acc; induction (combine xs ys) as [|xy l IH]; intros acc.
  - simpl. now rewrite append_nil_r.
  - cbn [fold_left List.map]. rewrite IH, concat_cons.
    now rewrite !append_assoc.
Qed.

Lemma lines_of_scalars (xs ys : list scalar) :
  List.map
    (fun xy => ("     " ++ fst xy ++ "     " ++ snd xy ++ Text.nl)%string)
    (combine (List.map str xs) (List.map str ys))
  = List.map
      (fun ef =>
         ("     " ++ str (fst ef) ++ "     " ++ str (snd ef) ++ Text.nl)%string)
      (combine xs ys).
Proof.
  revert ys; induction xs as [|x xs IH]; intros [|y ys]; simpl;
    try reflexivity.
  now rewrite IH.
Qed.

(** X18. The response table of a tally and the distribution table of a
    source are written with [zip]: when the two lists differ in length,
    the extra entries of the longer one are dropped without any error,
    and the table has one line per pair, in order. *)
Theorem X18_tables_follow_the_shorter_list (de df : list scalar)
    (id : string) (si sp : list scalar) (k : Z) :
  Tally._parse_de_df de df id
  = Tally._parse_de_df
      (firstn (Nat.min (List.length de) (List.length df)) de)
      (firstn (Nat.min (List.length de) (List.length df)) df) id /\
  Source._parse_si_sp k (Config.Items si) (Config.Items sp)
  = Source._parse_si_sp k
      (Config.Items (firstn (Nat.min (List.length si) (List.length sp)) si))
      (Config.Items (firstn (Nat.min (List.length si) (List.length sp)) sp))
  /\
  Tally._parse_de_df de df id
  = ("#     DE" ++ id ++ "     DF" ++ id ++ Text.nl
     ++ String.concat ""
          (List.map
             (fun ef =>
                "     " ++ str (fst ef) ++ "     " ++ str (snd ef) ++ Text.nl)
             (combine de df)))%string.
Proof.
  assert (R : forall xs ys : list scalar,
             Source.rows (List.map str xs) (List.map str ys)
             = Source.rows
                 (List.map str
                    (firstn (Nat.min (List.length xs) (List.length ys)) xs))
                 (List.map str
                    (firstn (Nat.min (List.length xs) (List.length ys)) ys))).
  { intros xs ys. unfold Source.rows.
    rewrite (combine_firstn_min (List.map str xs) (List.map str ys)).
    now rewrite !length_map, !firstn_map. }
  split; [|split].
  - unfold Tally._parse_de_df. now rewrite <- R.
  - unfold Source._parse_si_sp, Source.iter_item. cbn [Py.bind].
    now rewrite <- R.
  - unfold Tally._parse_de_df, Source.rows.
    rewrite rows_lines, lines_of_scalars.
    now rewrite !append_assoc.
Qed.




Lemma all_chars_app (p : ascii -> bool) (a b : string) :
  Reader.all_chars p (a ++ b) = Reader.all_chars p a && Reader.all_chars p b.
Proof.
  induction a as [|c a IH]; simpl; [reflexivity|].
  now rewrite IH, andb_assoc.
Qed.

Lemma all_chars_and (p q : ascii -> bool) (s : string) :
  Reader.all_chars (fun a => p a && q a) s = true ->
  Reader.all_chars p s = true /\ Reader.all_chars q s = true.
Proof.
  induction s as [|c s IH]; simpl; [auto|].
  intros H. apply andb_prop in H. destruct H as [Hc Hs].
  apply andb_prop in Hc. destruct Hc as [Hp Hq].
  destruct (IH Hs) as [H1 H2]. now rewrite Hp, Hq, H1, H2.
Qed.

Lemma split_join (parts : list string) :
  Forall (fun p => p <> EmptyString /\
                   Reader.all_chars not_space p = true) parts ->
  Reader.split (join " " parts) = parts.
Proof.
  unfold Reader.split. induction 1 as [|p parts [Hne Hp] Hall IH];
    [reflexivity|].
  destruct parts as [|q parts].
  - cbn [join]. rewrite <- (append_nil_r p) at 1.
    rewrite (@tokens_field p ""%string ""%string Hp). cbn [append].
    now rewrite (@tokens_end_field ""%string p Hne I).
  - change (join " " (p :: q :: parts))
      with (p ++ " " ++ join " " (q :: parts))%string.
    rewrite (@tokens_field p _ ""%string Hp). cbn [append].
    rewrite (@tokens_end_field (String " " (join " " (q :: parts))) p
               Hne eq_refl).
    f_equal. exact IH.
Qed.

(** X20. The text that [_list_to_str] prints for a list, split on white
    space, gives back the printed entries, one field each and in order,
    provided every entry prints as a non-empty text of ASCII characters
    without white space. *)
Theorem X20_list_to_str_fields (l : list scalar) :
  Forall (fun a => str a <> EmptyString /\
                   Reader.all_chars plain_char (str a) = true) l ->
  Reader.split (Text._list_to_str (Config.Items l)) = List.map str l.
Proof.
  intros H. unfold Text._list_to_str. apply split_join.
  induction H as [|a l [Hne Ha] Hall IH]; simpl; constructor;
    [|assumption].
  split; [exact Hne|]. exact (proj1 (@all_chars_and _ _ _ Ha)).
Qed.

Lemma X20_witness :
  Reader.split
    (Text._list_to_str (Config.Items [SInt (-1); SFloat "1.0"; SStr "p"]))
  = ["-1"; "1.0"; "p"]%string.
Proof.
  apply (@X20_list_to_str_fields [SInt (-1); SFloat "1.0"; SStr "p"]).
  repeat constructor; discriminate.
Defined.

(* ===================================================================== *)
(** * Further properties: the names of the deck files *)
(* ===================================================================== *)

Lemma rfind_from_absent (c : ascii) (s : string) (pos found : Z) :
  Reader.all_chars (fun a => negb (Ascii.eqb a c)) s = true ->
  Main.rfind_from c s pos found = found.
Proof.
  revert pos found; induction s as [|a s IH]; intros pos found H;
    simpl in *; [reflexivity|].
  apply andb_prop in H. destruct H as [Ha Hs].
  apply negb_true_iff in Ha. rewrite Ha. now apply IH.
Qed.

Lemma rfind_from_last (c : ascii) (dir rest : string) (pos found : Z) :
  Reader.all_chars (fun a => negb (Ascii.eqb a c)) rest = true ->
  Main.rfind_from c (dir ++ String c rest) pos found
  = (pos + Z.of_nat (String.length dir))%Z.
Proof.
  intros Hrest. revert pos found; induction dir as [|a dir IH];
    intros pos found.
  - cbn [append Main.rfind_from String.length]. rewrite Ascii.eqb_refl.
    rewrite rfind_from_absent by exact Hrest. simpl. lia.
  - cbn [append Main.rfind_from String.length]. rewrite IH. lia.
Qed.

Lemma drop_app (dir rest : string) :
  Main.drop (String.length dir) (dir ++ rest) = rest.
Proof. induction dir as [|a dir IH]; simpl; [now destruct rest|exact IH]. Qed.

Lemma basename_of_join (dir rest : string) :
  Reader.all_chars (fun a => negb (Ascii.eqb a "/")) rest = true ->
  Main.basename (dir ++ String "/" rest) = rest.
Proof.
  intros H. unfold Main.basename, Main.rfind.
  rewrite rfind_from_last by exact H.
  replace (Z.to_nat (0 + Z.of_nat (String.length dir) + 1))
    with (String.length (dir ++ "/")).
  - replace (dir ++ String "/" rest)%string
      with ((dir ++ "/") ++ rest)%string
      by (now rewrite append_assoc).
    apply drop_app.
  - induction dir as [|a dir IH]; simpl; [reflexivity|].
    rewrite IH. lia.
Qed.

Lemma basename_plain (p : string) :
  Reader.all_chars (fun a => negb (Ascii.eqb a "/")) p = true ->
  Main.basename p = p.
Proof.
  intros H. unfold Main.basename, Main.rfind.
  now rewrite rfind_from_absent by exact H.
Qed.

Lemma partition_head_app (sep : ascii) (name rest : string) :
  Reader.all_chars (fun a => negb (Ascii.eqb a sep)) name = true ->
  Main.partition_head sep (name ++ String sep rest) = name.
Proof.
  induction name as [|a name IH]; intros H; simpl in *.
  - now rewrite Ascii.eqb_refl.
  - apply andb_prop in H. destruct H as [Ha Hn].
    apply negb_true_iff in Ha. rewrite Ha. now rewrite IH.
Qed.

(** X21. The deck of an image file is named after the file name up to
    its first dot: for a path [dir/name.ext] in which [name] has neither
    a slash nor a dot and [ext] has no slash, the base name is [name]
    and the deck path is [output_path] joined with [name].  The
    directory and everything after the first dot are ignored, so images
    that differ in these only are written to the same deck file; the
    same holds for a bare file name of the directory branch. *)
Theorem X21_deck_name (output_path dir name ext : string) :
  Reader.all_chars
    (fun a => negb (Ascii.eqb a "/") && negb (Ascii.eqb a ".")) name = true ->
  Reader.all_chars (fun a => negb (Ascii.eqb a "/")) ext = true ->
  Main.base_name (dir ++ "/" ++ name ++ "." ++ ext) = name /\
  Main.out_path output_path (dir ++ "/" ++ name ++ "." ++ ext)
  = Main.path_join output_path name /\
  Main.base_name (name ++ "." ++ ext) = name /\
  snd (Main.dir_paths dir output_path (name ++ "." ++ ext))
  = Main.path_join output_path name.
Proof.
  intros Hname Hext.
  destruct (@all_chars_and _ _ _ Hname) as [Hslash Hdot].
  assert (Hrest : Reader.all_chars (fun a => negb (Ascii.eqb a "/"))
                    (name ++ "." ++ ext) = true).
  { rewrite all_chars_app, Hslash. cbn [append Reader.all_chars andb].
    exact Hext. }
  assert (B : Main.base_name (dir ++ "/" ++ name ++ "." ++ ext) = name).
  { unfold Main.base_name.
    change (dir ++ "/" ++ name ++ "." ++ ext)%string
      with (dir ++ String "/" (name ++ "." ++ ext))%string.
    rewrite (@basename_of_join dir _ Hrest).
    apply (@partition_head_app "." name ext Hdot). }
  assert (P : Main.partition_head "." (name ++ "." ++ ext) = name)
    by apply (@partition_head_app "." name ext Hdot).
  split; [exact B|]. split; [unfold Main.out_path; now rewrite B|].
  split.
  - unfold Main.base_name. now rewrite (@basename_plain _ Hrest).
  - unfold Main.dir_paths. cbn [snd]. now rewrite P.
Qed.

Lemma X21_witness :
  Main.out_path "./inp" "/data/ct/phantom.nii.gz" = "./inp/phantom"%string /\
  Main.out_path "./inp" "/other/phantom.mha" = "./inp/phantom"%string.
Proof.
  split.
  - exact (proj1 (proj2 (@X21_deck_name "./inp" "/data/ct" "phantom" "nii.gz"
                           eq_refl eq_refl))).
  - exact (proj1 (proj2 (@X21_deck_name "./inp" "/other" "phantom" "mha"
                           eq_refl eq_refl))).
Defined.

(* ===================================================================== *)
(** * Further properties: the composition of a material *)
(* ===================================================================== *)

Lemma scalar_eqb_spec (a b : scalar) : reflect (a = b) (scalar_eqb a b).
Proof.
  destruct a as [x|x|x], b as [y|y|y]; simpl;
    try (constructor; discriminate).
  - destruct (Z.eqb_spec x y); constructor; congruence.
  - destruct (String.eqb_spec x y); constructor; congruence.
  - destruct (String.eqb_spec x y); constructor; congruence.
Qed.

Lemma scalar_dict_set_absent (d : list (scalar * scalar)) (k v : scalar) :
  ~ In k (List.map fst d) ->
  dict_set scalar_eqb d k v = (d ++ [(k, v)])%list.
Proof.
  induction d as [|[k0 v0] d IH]; simpl; [reflexivity|].
  intros H. destruct (scalar_eqb_spec k0 k) as [->|Hne]; [tauto|].
  f_equal. apply IH. tauto.
Qed.

Lemma fold_dict_set_distinct (l acc : list (scalar * scalar)) :
  NoDup (List.map fst acc ++ List.map fst l) ->
  fold_left (fun d kv => dict_set scalar_eqb d (fst kv) (snd kv)) l acc
  = (acc ++ l)%list.
Proof.
  revert acc; induction l as [|[k v] l IH]; intros acc H; simpl.
  - now rewrite app_nil_r.
  - simpl in H. pose proof (NoDup_remove_2 _ _ _ H) as Hk.
    rewrite scalar_dict_set_absent
      by (intros Hin; apply Hk, in_or_app; now left).
    rewrite IH.
    + now rewrite <- app_assoc.
    + rewrite map_app, <- app_assoc. exact H.
Qed.

Lemma combine_keys_distinct (ks vs : list scalar) :
  NoDup ks -> NoDup (List.map fst (combine ks vs)).
Proof.
  intros H; revert vs; induction H as [|k ks Hk Hnd IH]; intros [|v vs];
    simpl; try constructor.
  - intros Hin. apply Hk. apply in_map_iff in Hin.
    destruct Hin as ([k' v'] & <- & Hin). exact (in_combine_l _ _ _ _ Hin).
  - apply IH.
Qed.

Lemma elements_lines (elements : list (scalar * scalar)) (acc : string) :
  fold_left
    (fun string nf =>
       (string ++ "     " ++ str (fst nf) ++ " " ++ str (snd nf) ++ Text.nl)
       %string)
    elements acc
  = (acc
     ++ String.concat ""
          (List.map
             (fun nf =>
                ("     " ++ str (fst nf) ++ " " ++ str (snd nf) ++ Text.nl)
                %string)
             elements))%string.
Proof.
  revert acc; induction elements as [|nf l IH]; intros acc.
  - simpl. now rewrite append_nil_r.
  - cbn [fold_left List.map]. rewrite IH, concat_cons.
    now rewrite !append_assoc.
Qed.

(** X22. For a material whose nucleons are integers or strings and all
    different, the card
    written after the [M<index>] line has one line per nucleon, in the
    order of the configuration, pairing the nucleons with the fractions
    position by position up to the end of the shorter list. *)
Theorem X22_material_card (nucleon fraction : list scalar) :
  forallb exact_key nucleon = true ->
  NoDup nucleon ->
  CTVoxel.dict_of_zip nucleon fraction = combine nucleon fraction /\
  Material._parse_elements_dict (CTVoxel.dict_of_zip nucleon fraction)
  = String.concat ""
      (List.map
         (fun nf =>
            ("     " ++ str (fst nf) ++ " " ++ str (snd nf) ++ Text.nl)%string)
         (combine nucleon fraction)).
Proof.
  intros _ H.
  assert (E : CTVoxel.dict_of_zip nucleon fraction = combine nucleon fraction).
  { unfold CTVoxel.dict_of_zip. rewrite fold_dict_set_distinct.
    - reflexivity.
    - simpl. now apply combine_keys_distinct. }
  split; [exact E|]. rewrite E. unfold Material._parse_elements_dict.
  now rewrite elements_lines.
Qed.

Lemma X22_witness :
  Material._parse_elements_dict
    (CTVoxel.dict_of_zip [SInt 1001; SInt 8016]
                         [SFloat "0.112"; SFloat "0.888"])
  = ("     1001 0.112" ++ Text.nl ++ "     8016 0.888" ++ Text.nl)%string.
Proof.
  assert (H : NoDup [SInt 1001; SInt 8016]).
  { constructor; [|constructor; [|constructor]]; simpl.
    - intros [E|[]]. discriminate E.
    - intros []. }
  rewrite (proj2 (@X22_material_card [SInt 1001; SInt 8016]
                    [SFloat "0.112"; SFloat "0.888"] eq_refl H)).
  reflexivity.
Defined.

Lemma scalar_dict_get_set (d : list (scalar * scalar)) (k' v k : scalar) :
  dict_get scalar_eqb (dict_set scalar_eqb d k' v) k
  = if scalar_eqb k' k then Some v else dict_get scalar_eqb d k.
Proof.
  induction d as [|[k0 v0] d IH]; simpl; [reflexivity|].
  destruct (scalar_eqb_spec k0 k') as [->|Hne]; simpl.
  - destruct (scalar_eqb k' k); reflexivity.
  - rewrite IH.
    destruct (scalar_eqb_spec k0 k) as [->|H0];
      destruct (scalar_eqb_spec k' k) as [->|H1]; congruence.
Qed.

Lemma scalar_dict_get_app (d1 d2 : list (scalar * scalar)) (k : scalar) :
  dict_get scalar_eqb (d1 ++ d2) k
  = match dict_get scalar_eqb d1 k with
    | Some v => Some v
    | None => dict_get scalar_eqb d2 k
    end.
Proof.
  induction d1 as [|[k0 v0] d1 IH]; simpl; [reflexivity|].
  destruct (scalar_eqb k0 k); [reflexivity|exact IH].
Qed.

Lemma fold_dict_set_get (l acc : list (scalar * scalar)) (k : scalar) :
  dict_get scalar_eqb
    (fold_left (fun d kv => dict_set scalar_eqb d (fst kv) (snd kv)) l acc) k
  = match dict_get scalar_eqb (rev l) k with
    | Some v => Some v
    | None => dict_get scalar_eqb acc k
    end.
Proof.
  revert acc; induction l as [|[k' v] l IH]; intros acc; simpl;
    [reflexivity|].
  rewrite IH, scalar_dict_get_app, scalar_dict_get_set. simpl.
  destruct (dict_get scalar_eqb (rev l) k); [reflexivity|].
  destruct (scalar_eqb k' k); reflexivity.
Qed.

Lemma scalar_dict_set_keys (d : list (scalar * scalar)) (k v : scalar) :
  NoDup (List.map fst d) ->
  NoDup (List.map fst (dict_set scalar_eqb d k v)).
Proof.
  intros H. destruct (in_dec (fun a b => reflect_dec _ _ (scalar_eqb_spec a b))
                        k (List.map fst d)) as [Hin|Hout].
  - replace (List.map fst (dict_set scalar_eqb d k v)) with (List.map fst d);
      [exact H|].
    clear H. induction d as [|[k0 v0] d IH]; simpl in *; [tauto|].
    destruct (scalar_eqb_spec k0 k) as [->|Hne]; simpl; [reflexivity|].
    f_equal. apply IH. destruct Hin; [congruence|assumption].
  - rewrite scalar_dict_set_absent by exact Hout.
    rewrite map_app. simpl. apply NoDup_app; [exact H|repeat constructor; simpl; tauto|].
    intros x Hx [<-|[]]. exact (Hout Hx).
Qed.

(** X23. The composition of a material is a dictionary built from the
    nucleon and fraction lists (nucleons being integers or strings):
    every nucleon appears once in it, and a nucleon listed several times
    gets the fraction of its last occurrence, without any error. *)
Theorem X23_repeated_nucleon (nucleon fraction : list scalar) (k : scalar) :
  forallb exact_key (k :: nucleon) = true ->
  NoDup (List.map fst (CTVoxel.dict_of_zip nucleon fraction)) /\
  dict_get scalar_eqb (CTVoxel.dict_of_zip nucleon fraction) k
  = dict_get scalar_eqb (rev (combine nucleon fraction)) k.
Proof.
  intros _. unfold CTVoxel.dict_of_zip. split.
  - assert (G : forall l acc : list (scalar * scalar),
               NoDup (List.map fst acc) ->
               NoDup (List.map fst
                        (fold_left
                           (fun d kv =>
                              dict_set scalar_eqb d (fst kv) (snd kv))
                           l acc))).
    { induction l as [|kv l IH]; intros acc H; simpl; [exact H|].
      apply IH. now apply scalar_dict_set_keys. }
    apply G. constructor.
  - rewrite fold_dict_set_get.
    destruct (dict_get scalar_eqb (rev (combine nucleon fraction)) k);
      reflexivity.
Qed.

Lemma X23_witness :
  dict_get scalar_eqb
    (CTVoxel.dict_of_zip [SInt 1001; SInt 8016; SInt 1001]
                         [SFloat "0.1"; SFloat "0.8"; SFloat "0.2"])
    (SInt 1001)
  = Some (SFloat "0.2").
Proof.
  rewrite (proj2 (@X23_repeated_nucleon [SInt 1001; SInt 8016; SInt 1001]
                    [SFloat "0.1"; SFloat "0.8"; SFloat "0.2"] (SInt 1001)
                    eq_refl)).
  reflexivity.
Defined.
